(** * Finance module of the Enterprise ERP: invoices, journal entries, payments

    A shallow embedding of [enterprise_erp/backend/finance/models.py]:
    the Django models that carry behaviour ([JournalEntry.is_balanced],
    [Invoice.is_overdue], [Invoice.calculate_totals],
    [InvoiceLine.calculate_totals]) together with the tables they read and
    write, and the properties of the accounting core checked against them.

    Money is Python's [decimal.Decimal]; its arithmetic is written out with
    the default context (28 significant digits, round-half-even).  A value
    written to a [DecimalField] goes through its [numeric] column, which
    holds it rounded to the declared places or refuses it; the instance in
    memory keeps the value it computed. *)

From Stdlib Require Import ZArith QArith Qpower Qfield List String Bool Lia.
From Stdlib Require Import Permutation Lqa.
Import ListNotations.

Local Open Scope Z_scope.

(** ** Python's [decimal.Decimal], finite values

    A finite Decimal is a signed coefficient and an exponent and denotes
    [coef * 10 ^ exp].  The sign lives in the coefficient, so a negative zero
    is not told apart from zero (they compare equal in Python).  NaN and the
    infinities do not occur in these computations.  The exponent range of
    the context (about +-10^6) is not modelled. *)
Module Decimal.

Record t : Set := mk { coef : Z; exp : Z }.

(** [getcontext().prec] of the default context. *)
Definition prec : Z := 28.

(** [len(str(n))] for [n >= 0], by repeated division. *)
Fixpoint ndigits_fuel (fuel : nat) (n : Z) : Z :=
  match fuel with
  | O => 1
  | S f => if n <? 10 then 1 else 1 + ndigits_fuel f (n / 10)
  end.

Definition ndigits (n : Z) : Z :=
  ndigits_fuel (S (Z.to_nat (Z.log2 (Z.abs n)))) (Z.abs n).

(** Drop the [k] last digits of [c >= 0], ROUND_HALF_EVEN. *)
Definition round_half_even (c k : Z) : Z :=
  let p := 10 ^ k in
  let q := c / p in
  let r := c mod p in
  if (p <? 2 * r) || ((2 * r =? p) && Z.odd q) then q + 1 else q.

(** [Decimal._fix(context)]: a coefficient longer than [prec] digits is
    rounded to [prec] digits; a carry that lengthens it again drops one
    more (zero) digit. *)
Definition round_ctx (d : t) : t :=
  let n := ndigits (coef d) in
  if n <=? prec then d
  else
    let k := n - prec in
    let q := round_half_even (Z.abs (coef d)) k in
    if q =? 10 ^ prec
    then mk (Z.sgn (coef d) * (q / 10)) (exp d + k + 1)
    else mk (Z.sgn (coef d) * q) (exp d + k).

(** [Decimal(n)] for a Python int. *)
Definition of_int (n : Z) : t := mk n 0.

(** The exact sum, at the smaller exponent. *)
Definition add_exact (a b : t) : t :=
  let e := Z.min (exp a) (exp b) in
  mk (coef a * 10 ^ (exp a - e) + coef b * 10 ^ (exp b - e)) e.

(** [a + b]: the exact sum rounded to the context precision. *)
Definition add (a b : t) : t := round_ctx (add_exact a b).

(** [copy_negate]. *)
Definition neg (a : t) : t := mk (- coef a) (exp a).

(** [a - b] is [a + b.copy_negate()]. *)
Definition sub (a b : t) : t := add a (neg b).

(** [a * b]. *)
Definition mul (a b : t) : t :=
  round_ctx (mk (coef a * coef b) (exp a + exp b)).

(** Trailing zeros are removed from an exact quotient while its exponent is
    below the ideal one. *)
Fixpoint strip (fuel : nat) (q e ideal : Z) : Z * Z :=
  match fuel with
  | O => (q, e)
  | S f =>
      if (e <? ideal) && (q mod 10 =? 0) then strip f (q / 10) (e + 1) ideal
      else (q, e)
  end.

(** [a / n] for a Python int [n > 0] ([Decimal.__truediv__] with the
    divisor [Decimal(n)], whose exponent is 0). *)
Definition div_int (a : t) (n : positive) : t :=
  if coef a =? 0 then round_ctx (mk 0 (exp a))
  else
    let c := Z.abs (coef a) in
    let shift := ndigits (Z.pos n) - ndigits c + prec + 1 in
    let e := exp a - shift in
    let num := if 0 <=? shift then c * 10 ^ shift else c in
    let den := if 0 <=? shift then Z.pos n else Z.pos n * 10 ^ (- shift) in
    let q := num / den in
    let r := num mod den in
    let '(q', e') :=
      if r =? 0 then strip (Z.to_nat (exp a - e)) q e (exp a)
      else (if q mod 5 =? 0 then q + 1 else q, e) in
    round_ctx (mk (Z.sgn (coef a) * q') e').

(** Numeric comparison, as Python's [==], [<], [<=] on Decimals. *)
Definition compare (a b : t) : comparison :=
  let e := Z.min (exp a) (exp b) in
  Z.compare (coef a * 10 ^ (exp a - e)) (coef b * 10 ^ (exp b - e)).

Definition eqb (a b : t) : bool :=
  match compare a b with Eq => true | _ => false end.

Definition ltb (a b : t) : bool :=
  match compare a b with Lt => true | _ => false end.

Definition leb (a b : t) : bool :=
  match compare a b with Gt => false | _ => true end.

(** [bool(d)]: a Decimal is falsy exactly when it is zero. *)
Definition truthy (d : t) : bool := negb (coef d =? 0).

(** The rational number a Decimal denotes. *)
Definition toQ (d : t) : Q := (inject_Z (coef d) * inject_Z 10 ^ exp d)%Q.

(** A literal with [places] digits after the point: [lit 18000 2] is
    [Decimal('180.00')]. *)
Definition lit (digits : Z) (places : Z) : t := mk digits (- places).

End Decimal.

(** ** Dates and times

    [datetime.date] compares as the triple (year, month, day);
    a [datetime] is a date and the microseconds elapsed in that day. *)
Record date : Set := mkdate { year : Z; month : Z; day : Z }.

Definition date_ltb (a b : date) : bool :=
  (year a <? year b)
  || ((year a =? year b)
      && ((month a <? month b) || ((month a =? month b) && (day a <? day b)))).

Record datetime : Set := mkdatetime { dt_date : date; dt_micro : Z }.

(** Primary keys are UUIDs (128-bit integers). *)
Definition uuid : Set := Z.

(** ** What the database stores

    A write yields the table after it, or raises; a write that raises
    leaves the table as it was.  [DataError] is raised for a value its
    column cannot hold, [IntegrityError] for a row that breaks a uniqueness
    constraint; a statement that would raise both raises [DataError], since
    the values are converted before the row is written.  Foreign keys are
    taken to point at stored rows (their tables belong to other
    applications) and character fields to be within their [max_length]. *)
Inductive outcome (A : Type) : Type :=
| Saved (table : A)
| DataError
| IntegrityError.

Arguments Saved {A} table.
Arguments DataError {A}.
Arguments IntegrityError {A}.

(** The table after a write attempted on [before]. *)
Definition table_after {A : Type} (o : outcome A) (before : A) : A :=
  match o with
  | Saved table => table
  | _ => before
  end.

(** [self._state.adding] after [save()]: a successful write clears it. *)
Definition adding_after {A : Type} (adding : bool) (o : outcome A) : bool :=
  match o with
  | Saved _ => false
  | _ => adding
  end.

(** [d] rounded to [places] digits after the point, ties away from zero:
    what a [numeric(_, places)] column makes of the value it is given (the
    rounding of PostgreSQL's [numeric]). *)
Definition round_to_places (places : Z) (d : Decimal.t) : Decimal.t :=
  if - places <=? Decimal.exp d
  then Decimal.mk (Decimal.coef d * 10 ^ (Decimal.exp d + places)) (- places)
  else
    let p := 10 ^ (- places - Decimal.exp d) in
    let q := Z.abs (Decimal.coef d) / p in
    let r := Z.abs (Decimal.coef d) mod p in
    Decimal.mk (Z.sgn (Decimal.coef d) * (if p <=? 2 * r then q + 1 else q))
      (- places).

(** [DecimalField(max_digits, decimal_places)] is a
    [numeric(max_digits, decimal_places)] column.  [save()] hands the
    Decimal to the database as it is; the column holds it rounded to
    [decimal_places] places and refuses it ([None], raised as [DataError])
    when the rounded value needs more than [max_digits] digits. *)
Definition to_column (max_digits decimal_places : Z) (d : Decimal.t)
    : option Decimal.t :=
  let r := round_to_places decimal_places d in
  if Z.abs (Decimal.coef r) <? 10 ^ max_digits then Some r else None.

(** [queryset.aggregate(total=Sum(column))['total']]: the database adds the
    column exactly and answers NULL ([None]) when there is no row. *)
Definition Sum (column : list Decimal.t) : option Decimal.t :=
  match column with
  | [] => None
  | d :: rest => Some (fold_left Decimal.add_exact rest d)
  end.

(** [x or Decimal('0')]: [None] and a zero Decimal are falsy. *)
Definition or_zero (x : option Decimal.t) : Decimal.t :=
  match x with
  | None => Decimal.of_int 0
  | Some d => if Decimal.truthy d then d else Decimal.of_int 0
  end.

(** ** class JournalEntry *)
Module JournalEntry.

Record t : Set := mk {
  id : uuid;
  company : uuid;
  entry_number : string;
  entry_date : date;
  entry_type : string;
  description : string;
  reference_number : string;
  reference_model : string;
  reference_id : option uuid;
  status : string;
  total_debit : Decimal.t;
  total_credit : Decimal.t;
  currency : string;
  created_by : uuid;
  posted_by : option uuid;
  posted_at : option datetime;
  created_at : datetime;
  updated_at : datetime
}.

(** The [choices] of the [status] field. *)
Definition STATUS : list (string * string) :=
  [("draft", "Draft"); ("posted", "Posted"); ("cancelled", "Cancelled")]%string.

(** [@property is_balanced]. *)
Definition is_balanced (self : t) : bool :=
  Decimal.eqb (total_debit self) (total_credit self).

End JournalEntry.

(** ** class JournalEntryLine *)
Module JournalEntryLine.

Record t : Set := mk {
  id : uuid;
  journal_entry : uuid;
  line_number : Z;
  account : uuid;
  debit : Decimal.t;
  credit : Decimal.t;
  description : string;
  reference : string;
  tracking_category : string;
  tracking_value : string
}.

End JournalEntryLine.

(** [entry.lines.all()]: the reverse side of the [journal_entry] foreign key
    ([related_name='lines']). *)
Definition journal_lines (entry : JournalEntry.t)
    (table : list JournalEntryLine.t) : list JournalEntryLine.t :=
  filter (fun l => JournalEntryLine.journal_entry l =? JournalEntry.id entry)
         table.

(** ** class InvoiceLine *)
Module InvoiceLine.

Record t : Set := mk {
  id : uuid;
  invoice : uuid;
  line_number : Z;
  product : option uuid;
  service : option uuid;
  description : string;
  quantity : Decimal.t;
  unit_price : Decimal.t;
  discount_percent : Decimal.t;
  line_total : Decimal.t;
  tax_rate : Decimal.t;
  tax_amount : Decimal.t;
  revenue_account : uuid
}.

(** The row the table holds for an instance: every [DecimalField] through
    its column.  [None] when a value does not fit. *)
Definition to_row (self : t) : option t :=
  match to_column 15 4 (quantity self), to_column 15 4 (unit_price self),
        to_column 5 2 (discount_percent self),
        to_column 20 2 (line_total self), to_column 5 2 (tax_rate self),
        to_column 20 2 (tax_amount self) with
  | Some q, Some p, Some d, Some lt, Some r, Some ta =>
      Some (mk (id self) (invoice self) (line_number self) (product self)
              (service self) (description self) q p d lt r ta
              (revenue_account self))
  | _, _, _, _, _, _ => None
  end.

(** The row with this primary key is replaced, or the row is added. *)
Fixpoint upsert (row : t) (table : list t) : list t :=
  match table with
  | [] => [row]
  | old :: rest =>
      if id old =? id row then row :: rest else old :: upsert row rest
  end.

(** [self.save()].  [adding] is [self._state.adding]: true for an instance
    that was constructed and not saved yet, false for one loaded from the
    table or saved before.  The primary key has a default, so an instance
    being added is inserted and is refused when its key is already stored;
    any other instance updates its row, or is inserted when it has none.
    The instance itself is not changed. *)
Definition save (adding : bool) (self : t) (table : list t)
    : outcome (list t) :=
  match to_row self with
  | None => DataError
  | Some row =>
      if adding && existsb (fun old => id old =? id self) table
      then IntegrityError
      else Saved (upsert row table)
  end.

Definition set_totals (self : t) (lt ta : Decimal.t) : t :=
  mk (id self) (invoice self) (line_number self) (product self)
     (service self) (description self) (quantity self) (unit_price self)
     (discount_percent self) lt (tax_rate self) ta (revenue_account self).

(** [def calculate_totals(self)]: returns the instance after the call and
    the outcome of its [save()].  The fields hold Decimals, as on an
    instance loaded from its table or built from Decimals.  A field left at
    an int default of the class, or given a Python int or float, is outside
    this model: the source then divides in floats. *)
Definition calculate_totals (adding : bool) (self : t) (table : list t)
    : t * outcome (list t) :=
  let discount_factor :=
    Decimal.sub (Decimal.of_int 1) (Decimal.div_int (discount_percent self) 100) in
  let subtotal :=
    Decimal.mul (Decimal.mul (quantity self) (unit_price self)) discount_factor in
  let self' :=
    set_totals self subtotal
      (Decimal.mul subtotal (Decimal.div_int (tax_rate self) 100)) in
  (self', save adding self' table).

End InvoiceLine.

(** ** class Invoice *)
Module Invoice.

Record t : Set := mk {
  id : uuid;
  company : uuid;
  invoice_type : string;
  invoice_number : string;
  invoice_date : date;
  due_date : date;
  customer : option uuid;
  supplier : option uuid;
  subtotal : Decimal.t;
  tax_amount : Decimal.t;
  discount_amount : Decimal.t;
  total_amount : Decimal.t;
  paid_amount : Decimal.t;
  balance_due : Decimal.t;
  currency : string;
  exchange_rate : Decimal.t;
  status : string;
  payment_terms : string;
  notes : string;
  created_by : uuid;
  created_at : datetime;
  updated_at : datetime
}.

Definition INVOICE_STATUS : list (string * string) :=
  [("draft", "Draft"); ("sent", "Sent");
   ("partially_paid", "Partially Paid"); ("paid", "Paid");
   ("cancelled", "Cancelled"); ("overdue", "Overdue")]%string.

(** A value the [status] field accepts: one of its [choices]. *)
Definition status_choice (s : string) : bool :=
  existsb (fun c => String.eqb s (fst c)) INVOICE_STATUS.

(** [@property is_overdue], with the value of [now()] at the read. *)
Definition is_overdue (now : datetime) (self : t) : bool :=
  date_ltb (due_date self) (dt_date now)
  && negb (existsb (String.eqb (status self)) ["paid"; "cancelled"]%string).

(** [self.line_items.all()]: the reverse side of [InvoiceLine.invoice]
    ([related_name='line_items']). *)
Definition line_items (self : t) (lines : list InvoiceLine.t)
    : list InvoiceLine.t :=
  filter (fun l => InvoiceLine.invoice l =? id self) lines.

Definition set_totals (self : t) (st ta tot bal : Decimal.t) : t :=
  mk (id self) (company self) (invoice_type self) (invoice_number self)
     (invoice_date self) (due_date self) (customer self) (supplier self)
     st ta (discount_amount self) tot (paid_amount self) bal
     (currency self) (exchange_rate self) (status self) (payment_terms self)
     (notes self) (created_by self) (created_at self) (updated_at self).

Definition set_stamps (self : t) (created updated : datetime) : t :=
  mk (id self) (company self) (invoice_type self) (invoice_number self)
     (invoice_date self) (due_date self) (customer self) (supplier self)
     (subtotal self) (tax_amount self) (discount_amount self)
     (total_amount self) (paid_amount self) (balance_due self)
     (currency self) (exchange_rate self) (status self) (payment_terms self)
     (notes self) (created_by self) created updated.

(** The row the table holds for an instance: every [DecimalField] through
    its column.  [None] when a value does not fit. *)
Definition to_row (self : t) : option t :=
  match to_column 20 2 (subtotal self), to_column 20 2 (tax_amount self),
        to_column 20 2 (discount_amount self),
        to_column 20 2 (total_amount self), to_column 20 2 (paid_amount self),
        to_column 20 2 (balance_due self),
        to_column 15 6 (exchange_rate self) with
  | Some st, Some ta, Some di, Some tot, Some pa, Some bal, Some xr =>
      Some (mk (id self) (company self) (invoice_type self)
              (invoice_number self) (invoice_date self) (due_date self)
              (customer self) (supplier self) st ta di tot pa bal
              (currency self) xr (status self) (payment_terms self)
              (notes self) (created_by self) (created_at self)
              (updated_at self))
  | _, _, _, _, _, _, _ => None
  end.

(** The row with this primary key is replaced, or the row is added. *)
Fixpoint upsert (row : t) (table : list t) : list t :=
  match table with
  | [] => [row]
  | old :: rest =>
      if id old =? id row then row :: rest else old :: upsert row rest
  end.

(** The uniqueness constraints of the table against a stored row: the
    primary key, which only an insert of an instance being added can
    break, and [invoice_number] ([unique=True]) against every other row. *)
Definition conflicts (adding : bool) (self row : t) : bool :=
  if id row =? id self then adding
  else String.eqb (invoice_number row) (invoice_number self).

(** [self.save()] at time [now].  [adding] is [self._state.adding]: an
    instance being added is inserted (the primary key has a default); any
    other instance updates its row, or is inserted when it has none.
    [updated_at] is [auto_now] and [created_at] is [auto_now_add]: they are
    set on the instance before the statement runs, [created_at] on the
    insert path only.  Returns the instance and the outcome of the write. *)
Definition save (now : datetime) (adding : bool) (self : t) (table : list t)
    : t * outcome (list t) :=
  let stored := existsb (fun row => id row =? id self) table in
  let inserting := adding || negb stored in
  let self' :=
    set_stamps self (if inserting then now else created_at self) now in
  (self',
   match to_row self' with
   | None => DataError
   | Some row =>
       if existsb (conflicts adding self) table then IntegrityError
       else Saved (upsert row table)
   end).

(** [def calculate_totals(self)] at time [now], over the tables of invoice
    lines and of invoices: returns the instance after the call and the
    outcome of its [save()]. *)
Definition calculate_totals (now : datetime) (adding : bool) (self : t)
    (lines : list InvoiceLine.t) (invoices : list t)
    : t * outcome (list t) :=
  let line_items := line_items self lines in
  let st := or_zero (Sum (map InvoiceLine.line_total line_items)) in
  let ta := or_zero (Sum (map InvoiceLine.tax_amount line_items)) in
  let tot := Decimal.sub (Decimal.add st ta) (discount_amount self) in
  let bal := Decimal.sub tot (paid_amount self) in
  save now adding (set_totals self st ta tot bal) invoices.

End Invoice.

(** ** class Payment *)
Module Payment.

Record t : Set := mk {
  id : uuid;
  company : uuid;
  payment_number : string;
  payment_date : date;
  payment_method : string;
  payment_reference : string;
  amount : Decimal.t;
  currency : string;
  exchange_rate : Decimal.t;
  customer : option uuid;
  supplier : option uuid;
  bank_account : option uuid;
  status : string;
  notes : string;
  created_by : uuid;
  created_at : datetime;
  updated_at : datetime
}.

End Payment.

(** ** class PaymentAllocation *)
Module PaymentAllocation.

Record t : Set := mk {
  id : uuid;
  payment : uuid;
  invoice : uuid;
  allocated_amount : Decimal.t;
  allocated_at : datetime
}.

(** [unique_together = ['payment', 'invoice']] and the primary key: the
    constraints the table puts on a new row. *)
Definition conflicts (self row : t) : bool :=
  (id row =? id self)
  || ((payment row =? payment self) && (invoice row =? invoice self)).

(** [PaymentAllocation.objects.create(...)] at time [now]: an insert.  The
    amount goes through its column, [allocated_at] is [auto_now_add], and
    the row is refused when it breaks a uniqueness constraint.  Nothing
    compares the amount with the payment or the invoice. *)
Definition create (now : datetime) (self : t) (table : list t)
    : outcome (list t) :=
  match to_column 20 2 (allocated_amount self) with
  | None => DataError
  | Some amount =>
      if existsb (conflicts self) table then IntegrityError
      else Saved (table ++ [mk (id self) (payment self) (invoice self)
                              amount now])
  end.

End PaymentAllocation.

(** [payment.allocations.all()] and [invoice.payment_allocations.all()]. *)
Definition allocations (p : Payment.t) (table : list PaymentAllocation.t)
    : list PaymentAllocation.t :=
  filter (fun a => PaymentAllocation.payment a =? Payment.id p) table.

Definition payment_allocations (i : Invoice.t)
    (table : list PaymentAllocation.t) : list PaymentAllocation.t :=
  filter (fun a => PaymentAllocation.invoice a =? Invoice.id i) table.

(** The sum of a column as a rational number; zero for no row. *)
Definition sumQ (column : list Decimal.t) : Q :=
  fold_right Qplus 0%Q (map Decimal.toQ column).

(** ** Vocabulary of the properties *)

(** [DecimalField(max_digits, decimal_places)] as a column holds a value:
    [decimal_places] digits after the point, at most [max_digits] digits. *)
Definition column (max_digits decimal_places : Z) (d : Decimal.t) : Prop :=
  Decimal.exp d = - decimal_places /\
  Z.abs (Decimal.coef d) < 10 ^ max_digits.

(** A whole number of cents, at most [B] cents in magnitude. *)
Definition cents_within (B : Z) (d : Decimal.t) : Prop :=
  -2 <= Decimal.exp d /\
  Z.abs (Decimal.coef d) * 10 ^ (Decimal.exp d + 2) <= B.

(** [a < b] on dates, as a proposition. *)
Definition date_before (a b : date) : Prop :=
  year a < year b
  \/ (year a = year b
      /\ (month a < month b \/ (month a = month b /\ day a < day b))).

(** At most two digits after the point. *)
Definition two_places (d : Decimal.t) : Prop := -2 <= Decimal.exp d.

(** Rounding to 2 decimal places, half-up (ties away from zero), as the
    rounding policy words it: [d.quantize(Decimal('0.01'), ROUND_HALF_UP)]. *)
Definition spec_round_half_up (d : Decimal.t) : Decimal.t :=
  if -2 <=? Decimal.exp d
  then Decimal.mk (Decimal.coef d * 10 ^ (Decimal.exp d + 2)) (-2)
  else
    let p := 10 ^ (- 2 - Decimal.exp d) in
    let q := Z.abs (Decimal.coef d) / p in
    let r := Z.abs (Decimal.coef d) mod p in
    Decimal.mk (Z.sgn (Decimal.coef d) * (if p <=? 2 * r then q + 1 else q)) (-2).

(** [Invoice.objects.get(pk=...)]: the stored row of an invoice. *)
Definition stored_invoice (pk : uuid) (table : list Invoice.t)
    : option Invoice.t :=
  find (fun row => Invoice.id row =? pk) table.

(** The invoice as [Invoice.calculate_totals] hands it to [save()]. *)
Definition with_totals (self : Invoice.t) (lines : list InvoiceLine.t)
    : Invoice.t :=
  let line_items := Invoice.line_items self lines in
  let st := or_zero (Sum (map InvoiceLine.line_total line_items)) in
  let ta := or_zero (Sum (map InvoiceLine.tax_amount line_items)) in
  let tot := Decimal.sub (Decimal.add st ta) (Invoice.discount_amount self) in
  let bal := Decimal.sub tot (Invoice.paid_amount self) in
  Invoice.set_totals self st ta tot bal.


(** The four cached totals of an invoice. *)
Definition totals (i : Invoice.t)
    : Decimal.t * Decimal.t * Decimal.t * Decimal.t :=
  (Invoice.subtotal i, Invoice.tax_amount i, Invoice.total_amount i,
   Invoice.balance_due i).

(** ** Sample rows *)

Definition epoch : datetime := mkdatetime (mkdate 2024 1 1) 0.

(** An invoice line with the given quantity, unit price, discount percent
    and tax rate, not yet computed. *)
Definition sample_line (pk inv : uuid) (q p d r : Decimal.t) : InvoiceLine.t :=
  InvoiceLine.mk pk inv 1 None None "item" q p d (Decimal.lit 0 2) r
    (Decimal.lit 0 2) 7.

(** Quantity 123456789.0123 at unit price 987654321.9876, discount and tax
    12.34 %. *)
Definition wide_line : InvoiceLine.t :=
  sample_line 1 1 (Decimal.lit 1234567890123 4)
    (Decimal.lit 9876543219876 4) (Decimal.lit 1234 2) (Decimal.lit 1234 2).

(** Scenario A: quantity 2, unit price 100, discount 10 %, tax 5 %, as the
    columns hold them, and as Decimals made from integers ([Decimal(2)],
    [Decimal(100)], [Decimal(10)], [Decimal(5)]). *)
Definition scenario_line : InvoiceLine.t :=
  sample_line 11 10 (Decimal.lit 20000 4) (Decimal.lit 1000000 4)
    (Decimal.lit 1000 2) (Decimal.lit 500 2).

Definition scenario_line_int : InvoiceLine.t :=
  sample_line 11 10 (Decimal.of_int 2) (Decimal.of_int 100)
    (Decimal.of_int 10) (Decimal.of_int 5).

(** Quantity 1.0001 at unit price 1.0000, no discount, no tax. *)
Definition fine_line : InvoiceLine.t :=
  sample_line 21 20 (Decimal.lit 10001 4) (Decimal.lit 10000 4)
    (Decimal.lit 0 2) (Decimal.lit 0 2).


(** An invoice with the given key, status, discount and paid amount, and
    zero cached totals. *)
Definition sample_invoice (pk : uuid) (st : string) (due : date)
    (discount paid : Decimal.t) : Invoice.t :=
  Invoice.mk pk 1 "sales" "INV-1" (mkdate 2024 1 1) due None None
    (Decimal.lit 0 2) (Decimal.lit 0 2) discount (Decimal.lit 0 2) paid
    (Decimal.lit 0 2) "USD" (Decimal.lit 1000000 6) st EmptyString EmptyString 1
    epoch epoch.

Definition scenario_invoice : Invoice.t :=
  sample_invoice 10 "draft" (mkdate 2024 2 1) (Decimal.lit 0 2)
    (Decimal.lit 0 2).

(** The Scenario A line as a table of two-place columns holds it. *)
Definition scenario_row : InvoiceLine.t :=
  InvoiceLine.set_totals scenario_line (Decimal.lit 18000 2)
    (Decimal.lit 900 2).

Definition later : datetime := mkdatetime (mkdate 2024 3 1) 0.

(** An invoice stored with the status 'overdue'. *)
Definition overdue_invoice : Invoice.t :=
  sample_invoice 30 "overdue" (mkdate 2024 2 1) (Decimal.lit 0 2)
    (Decimal.lit 0 2).

(** A journal entry with the given status and cached totals, and a journal
    line of the entry with key 40. *)
Definition sample_entry (st : string) (td tc : Decimal.t) : JournalEntry.t :=
  JournalEntry.mk 40 1 "JE-1" (mkdate 2024 1 1) "general" "sale" EmptyString
    EmptyString None
    st td tc "USD" 1 None None epoch epoch.

Definition sample_journal_line (pk : uuid) (n : Z) (d c : Decimal.t)
    : JournalEntryLine.t :=
  JournalEntryLine.mk pk 40 n 100 d c EmptyString EmptyString EmptyString
    EmptyString.

(** Debit 100.00 against credit 90.00, and against credit 100.00. *)
Definition unbalanced_lines : list JournalEntryLine.t :=
  [sample_journal_line 41 1 (Decimal.lit 10000 2) (Decimal.lit 0 2);
   sample_journal_line 42 2 (Decimal.lit 0 2) (Decimal.lit 9000 2)].

Definition balanced_lines : list JournalEntryLine.t :=
  [sample_journal_line 41 1 (Decimal.lit 10000 2) (Decimal.lit 0 2);
   sample_journal_line 42 2 (Decimal.lit 0 2) (Decimal.lit 10000 2)].

(** A stored line of invoice 10 whose line total is 600000000000000000.00,
    and a line whose product is about 1e22. *)
Definition heavy_row (pk : uuid) : InvoiceLine.t :=
  InvoiceLine.set_totals
    (sample_line pk 10 (Decimal.lit 10000 4) (Decimal.lit 0 4)
       (Decimal.lit 0 2) (Decimal.lit 0 2))
    (Decimal.lit 60000000000000000000 2) (Decimal.lit 0 2).

Definition huge_line : InvoiceLine.t :=
  sample_line 22 20 (Decimal.lit 999999999999999 4)
    (Decimal.lit 999999999999999 4) (Decimal.lit 0 2) (Decimal.lit 0 2).

(** A payment of 100.00 and an allocation of 150.00 of it to invoice 10. *)
Definition sample_payment : Payment.t :=
  Payment.mk 50 1 "PAY-1" (mkdate 2024 1 15) "cash" EmptyString
    (Decimal.lit 10000 2) "USD" (Decimal.lit 1000000 6) None None None
    "pending" EmptyString 1 epoch epoch.

Definition sample_allocation (amount : Decimal.t) : PaymentAllocation.t :=
  PaymentAllocation.mk 60 50 10 amount epoch.

(** [InvoiceLine.objects.get(pk=...)]: the stored row of an invoice line. *)
Definition stored_line (pk : uuid) (table : list InvoiceLine.t)
    : option InvoiceLine.t :=
  find (fun row => InvoiceLine.id row =? pk) table.


(** ** Proof steps *)

(** Splits a hypothesis [to_row _ = Some _] into the columns of its fields. *)
Ltac split_columns H :=
  repeat match type of H with
  | context [match to_column ?m ?p ?d with _ => _ end] =>
      let E := fresh "Ecol" in
      destruct (to_column m p d) eqn:E; [|discriminate H]
  end.

(** Decides a goal about [to_row] by cases on the columns of its fields. *)
Ltac case_columns :=
  repeat match goal with
  | |- context [match to_column ?m ?p ?d with _ => _ end] =>
      destruct (to_column m p d)
  end.

(** * Properties *)

Example ndigits_examples :
  Decimal.ndigits 0 = 1 /\ Decimal.ndigits 9 = 1 /\ Decimal.ndigits 10 = 2 /\
  Decimal.ndigits (-12345) = 5 /\ Decimal.ndigits (10 ^ 28) = 29.
Proof. repeat split; vm_compute; reflexivity. Qed.

Example div_examples :
  Decimal.div_int (Decimal.lit 1000 2) 100 = Decimal.lit 10 2 /\
  Decimal.div_int (Decimal.lit 500 2) 100 = Decimal.lit 5 2 /\
  Decimal.div_int (Decimal.lit 1 0) 3 = Decimal.lit 3333333333333333333333333333 28 /\
  Decimal.div_int (Decimal.lit 1250 2) 100 = Decimal.lit 125 3 /\
  Decimal.div_int (Decimal.lit 2 0) 3 = Decimal.lit 6666666666666666666666666667 28.
Proof. repeat split; vm_compute; reflexivity. Qed.

(** ** Facts about the Decimal arithmetic *)
Section DecimalFacts.

Import Decimal.

Lemma pow10_pos (k : Z) : 0 <= k -> 0 < 10 ^ k.
Proof. intros Hk. apply Z.pow_pos_nonneg; lia. Qed.

Lemma pow10_succ (k : Z) : 0 <= k -> 10 ^ (k + 1) = 10 * 10 ^ k.
Proof. intros Hk. rewrite Z.pow_add_r by lia. lia. Qed.

Lemma ndigits_fuel_le (f : nat) : forall n k,
  0 <= n < 10 ^ k -> 1 <= k -> ndigits_fuel f n <= k.
Proof.
  induction f as [|f IH]; intros n k Hn Hk; cbn [ndigits_fuel]; [lia|].
  destruct (n <? 10) eqn:E; [lia|].
  apply Z.ltb_ge in E.
  assert (Hk2 : 2 <= k).
  { destruct (Z.eq_dec k 1) as [->|]; [simpl in Hn; lia | lia]. }
  assert (Hd : n / 10 < 10 ^ (k - 1)).
  { apply Z.div_lt_upper_bound; [lia|].
    rewrite <- pow10_succ by lia.
    replace (k - 1 + 1) with k by lia. lia. }
  assert (0 <= n / 10) by (apply Z.div_pos; lia).
  assert (ndigits_fuel f (n / 10) <= k - 1) by (apply IH; lia). lia.
Qed.

Lemma ndigits_le (c k : Z) : Z.abs c < 10 ^ k -> 1 <= k -> ndigits c <= k.
Proof. intros H Hk. unfold ndigits. apply ndigits_fuel_le; lia. Qed.

Lemma round_ctx_small (d : t) : Z.abs (coef d) < 10 ^ prec -> round_ctx d = d.
Proof.
  intros H. unfold round_ctx.
  assert (ndigits (coef d) <= prec) by (apply ndigits_le; [exact H | unfold prec; lia]).
  destruct (ndigits (coef d) <=? prec) eqn:E; [reflexivity|].
  apply Z.leb_gt in E. lia.
Qed.

Lemma Q10_nz : ~ (inject_Z 10 == 0)%Q.
Proof. intros H. discriminate H. Qed.

Lemma Qpow10_Z (k : Z) : 0 <= k -> (inject_Z (10 ^ k) == inject_Z 10 ^ k)%Q.
Proof.
  intros Hk. pattern k. apply natlike_ind; [reflexivity | | exact Hk].
  clear k Hk. intros k Hk IH. unfold Z.succ.
  rewrite pow10_succ by lia. rewrite inject_Z_mult, IH.
  rewrite Qpower_plus by exact Q10_nz. simpl (inject_Z 10 ^ 1)%Q. ring.
Qed.

Lemma toQ_shift (c k e : Z) :
  0 <= k -> (toQ (mk (c * 10 ^ k) e) == toQ (mk c (e + k)))%Q.
Proof.
  intros Hk. unfold toQ; simpl.
  rewrite inject_Z_mult, Qpow10_Z by lia.
  rewrite (Qpower_plus _ e k) by exact Q10_nz. ring.
Qed.

Lemma toQ_align (a : t) (e : Z) :
  e <= exp a -> (toQ a == toQ (mk (coef a * 10 ^ (exp a - e)) e))%Q.
Proof.
  intros He. rewrite toQ_shift by lia.
  replace (e + (exp a - e)) with (exp a) by lia. destruct a; reflexivity.
Qed.

Lemma toQ_same_exp (x y e : Z) :
  (toQ (mk (x + y) e) == toQ (mk x e) + toQ (mk y e))%Q.
Proof. unfold toQ; simpl. rewrite inject_Z_plus. ring. Qed.

Lemma toQ_add_exact (a b : t) : (toQ (add_exact a b) == toQ a + toQ b)%Q.
Proof.
  unfold add_exact. rewrite toQ_same_exp.
  rewrite <- (toQ_align a), <- (toQ_align b) by lia. reflexivity.
Qed.

Lemma toQ_neg (a : t) : (toQ (neg a) == - toQ a)%Q.
Proof. unfold toQ, neg; simpl. rewrite inject_Z_opp. ring. Qed.

Lemma toQ_mul_exact (a b : t) :
  (toQ (mk (coef a * coef b) (exp a + exp b)) == toQ a * toQ b)%Q.
Proof.
  unfold toQ; simpl. rewrite inject_Z_mult.
  rewrite Qpower_plus by exact Q10_nz. ring.
Qed.

Lemma toQ_of_int (n : Z) : (toQ (of_int n) == inject_Z n)%Q.
Proof. unfold toQ, of_int; simpl. ring. Qed.

Lemma Qpow10_pos (e : Z) : (0 < inject_Z 10 ^ e)%Q.
Proof. apply Qpower_0_lt. reflexivity. Qed.

Lemma toQ_scaled (a : t) (e : Z) :
  e <= exp a ->
  (toQ a == inject_Z (coef a * 10 ^ (exp a - e)) * inject_Z 10 ^ e)%Q.
Proof. intros He. rewrite (toQ_align a e He). reflexivity. Qed.

Lemma eqb_toQ (a b : t) : eqb a b = true <-> (toQ a == toQ b)%Q.
Proof.
  unfold eqb, compare.
  set (e := Z.min (exp a) (exp b)).
  rewrite (toQ_scaled a e), (toQ_scaled b e) by (subst e; lia).
  set (x := coef a * 10 ^ (exp a - e)). set (y := coef b * 10 ^ (exp b - e)).
  pose proof (Qpow10_pos e) as Hp.
  split.
  - destruct (Z.compare_spec x y) as [->| |]; try discriminate. reflexivity.
  - intros H. apply Qmult_inj_r in H.
    + assert (Hxy : x = y) by (apply inject_Z_injective; exact H).
      rewrite Hxy, Z.compare_refl. reflexivity.
    + intros Hz. rewrite Hz in Hp. discriminate Hp.
Qed.

Lemma leb_toQ (a b : t) : leb a b = true <-> (toQ a <= toQ b)%Q.
Proof.
  unfold leb, compare.
  set (e := Z.min (exp a) (exp b)).
  rewrite (toQ_scaled a e), (toQ_scaled b e) by (subst e; lia).
  set (x := coef a * 10 ^ (exp a - e)). set (y := coef b * 10 ^ (exp b - e)).
  rewrite (Qmult_le_r _ _ _ (Qpow10_pos e)), <- Zle_Qle.
  destruct (Z.compare_spec x y); split; intros; try reflexivity; try lia;
    discriminate.
Qed.

Lemma ltb_toQ (a b : t) : ltb a b = true <-> (toQ a < toQ b)%Q.
Proof.
  unfold ltb, compare.
  set (e := Z.min (exp a) (exp b)).
  rewrite (toQ_scaled a e), (toQ_scaled b e) by (subst e; lia).
  set (x := coef a * 10 ^ (exp a - e)). set (y := coef b * 10 ^ (exp b - e)).
  rewrite (Qmult_lt_r _ _ _ (Qpow10_pos e)), <- Zlt_Qlt.
  destruct (Z.compare_spec x y); split; intros; try reflexivity; try lia;
    discriminate.
Qed.

Lemma toQ_add (a b : t) :
  Z.abs (coef (add_exact a b)) < 10 ^ prec ->
  (toQ (add a b) == toQ a + toQ b)%Q.
Proof.
  intros H. unfold add. rewrite round_ctx_small by exact H.
  apply toQ_add_exact.
Qed.

Lemma toQ_sub (a b : t) :
  Z.abs (coef (add_exact a (neg b))) < 10 ^ prec ->
  (toQ (sub a b) == toQ a - toQ b)%Q.
Proof.
  intros H. unfold sub. rewrite toQ_add by exact H. rewrite toQ_neg. ring.
Qed.

Lemma toQ_mul (a b : t) :
  Z.abs (coef a * coef b) < 10 ^ prec ->
  (toQ (mul a b) == toQ a * toQ b)%Q.
Proof.
  intros H. unfold mul. rewrite round_ctx_small by exact H.
  apply toQ_mul_exact.
Qed.

(** What [strip] returns: [j] zeros were removed, and it stopped for one of
    its three reasons. *)
Lemma strip_spec (f : nat) : forall q e ideal,
  exists j,
    0 <= j <= Z.of_nat f /\
    q = fst (strip f q e ideal) * 10 ^ j /\
    snd (strip f q e ideal) = e + j /\
    (j = Z.of_nat f \/ ideal <= e + j \/ fst (strip f q e ideal) mod 10 <> 0).
Proof.
  induction f as [|f IH]; intros q e ideal.
  - exists 0. cbn [strip fst snd]. repeat split; lia.
  - cbn [strip].
    destruct ((e <? ideal) && (q mod 10 =? 0)) eqn:C.
    + apply andb_true_iff in C. destruct C as [C1 C2].
      apply Z.eqb_eq in C2.
      destruct (IH (q / 10) (e + 1) ideal) as (j & Hj & Hq & He & Hs).
      exists (j + 1).
      assert (Hq10 : q = fst (strip f (q / 10) (e + 1) ideal) * 10 ^ (j + 1)).
      { rewrite pow10_succ by lia.
        pose proof (Z.div_mod q 10 ltac:(lia)) as Hd.
        rewrite C2 in Hd. rewrite Hd at 1. rewrite Hq at 1. ring. }
      split; [lia|]. split; [exact Hq10|]. split; [lia|].
      destruct Hs as [Hs|[Hs|Hs]]; [left; lia | right; left; lia | right; right; exact Hs].
    + exists 0. cbn [fst snd].
      split; [lia|]. split; [lia|]. split; [lia|].
      apply andb_false_iff in C. destruct C as [C|C].
      * apply Z.ltb_ge in C. right; left; lia.
      * apply Z.eqb_neq in C. right; right; exact C.
Qed.

Lemma ndigits_fuel_pos (f : nat) : forall n, 1 <= ndigits_fuel f n.
Proof.
  induction f as [|f IH]; intros n; cbn [ndigits_fuel]; [lia|].
  destruct (n <? 10); [lia|]. specialize (IH (n / 10)). lia.
Qed.

Lemma ndigits_pos (c : Z) : 1 <= ndigits c.
Proof. apply ndigits_fuel_pos. Qed.

(** The quotient by 100 of a coefficient of at most [prec] digits: the
    coefficient [q] and exponent [e] of [div_int a 100] satisfy
    [q * 10 ^ j = coef a] and [e = exp a - 2 + j] for some [0 <= j]. *)
Lemma div_int_100_repr (a : t) :
  Z.abs (coef a) < 10 ^ prec ->
  exists j, 0 <= j /\
    coef (div_int a 100) * 10 ^ j = coef a /\
    exp (div_int a 100) = exp a - 2 + j.
Proof.
  intros Hc. unfold div_int.
  destruct (coef a =? 0) eqn:E0.
  - apply Z.eqb_eq in E0. rewrite round_ctx_small
      by (cbn [coef]; change (Z.abs 0) with 0; apply pow10_pos; unfold prec; lia).
    exists 2. cbn [coef exp]. rewrite E0. repeat split; lia.
  - apply Z.eqb_neq in E0.
    set (c := Z.abs (coef a)) in *.
    assert (Hcpos : 0 < c) by (subst c; lia).
    assert (HL : 1 <= ndigits c <= prec).
    { split; [apply ndigits_pos|]. apply ndigits_le; [|unfold prec; lia].
      subst c. lia. }
    change (ndigits 100) with 3.
    set (shift := 3 - ndigits c + prec + 1).
    assert (Hsh : 4 <= shift) by (subst shift; lia).
    assert (Hle : (0 <=? shift) = true) by (apply Z.leb_le; lia).
    rewrite Hle.
    assert (Hnum : c * 10 ^ shift = (c * 10 ^ (shift - 2)) * 100).
    { replace shift with ((shift - 2) + 2) at 1 by lia.
      rewrite Z.pow_add_r by lia. change (10 ^ 2) with 100. ring. }
    rewrite Hnum, Z.div_mul, Z.mod_mul by lia. cbn [Z.eqb].
    replace (exp a - (exp a - shift)) with shift by lia.
    destruct (strip_spec (Z.to_nat shift) (c * 10 ^ (shift - 2)) (exp a - shift) (exp a))
      as (j & Hj & Hq & He & Hs).
    destruct (strip (Z.to_nat shift) (c * 10 ^ (shift - 2)) (exp a - shift) (exp a))
      as [q' e'] eqn:S.
    cbn [fst snd] in *. rewrite Z2Nat.id in * by lia.
    assert (Hjs : shift - 2 <= j).
    { destruct (Z_le_gt_dec (shift - 2) j) as [|Hlt]; [assumption|exfalso].
      assert (Hq' : q' = c * 10 ^ (shift - 2 - j)).
      { apply (Z.mul_reg_r _ _ (10 ^ j)); [pose proof (pow10_pos j); lia|].
        rewrite <- Hq, <- Z.mul_assoc, <- Z.pow_add_r by lia.
        f_equal. f_equal. lia. }
      destruct Hs as [Hs|[Hs|Hs]]; [lia | lia |].
      apply Hs. rewrite Hq'.
      replace (shift - 2 - j) with ((shift - 2 - j - 1) + 1) by lia.
      rewrite pow10_succ by lia.
      replace (c * (10 * 10 ^ (shift - 2 - j - 1)))
        with ((c * 10 ^ (shift - 2 - j - 1)) * 10) by ring.
      apply Z.mod_mul. lia. }
    assert (Hcq : c = q' * 10 ^ (j - (shift - 2))).
    { apply (Z.mul_reg_r _ _ (10 ^ (shift - 2))); [pose proof (pow10_pos (shift - 2)); lia|].
      rewrite Hq, <- Z.mul_assoc, <- Z.pow_add_r by lia.
      f_equal. f_equal. lia. }
    pose proof (pow10_pos (j - (shift - 2)) ltac:(lia)) as Hp.
    assert (Hq'pos : 0 < q' <= c) by nia.
    rewrite round_ctx_small.
    + exists (j - (shift - 2)). cbn [coef exp].
      split; [lia|]. split; [|lia].
      rewrite <- Z.mul_assoc, <- Hcq. subst c. lia.
    + cbn [coef].
      destruct (Z.sgn_spec (coef a)) as [[_ ->]|[[_ ->]|[_ ->]]]; lia.
Qed.

Lemma toQ_div_int_100 (a : t) :
  Z.abs (coef a) < 10 ^ prec ->
  (toQ (div_int a 100) == toQ a / inject_Z 100)%Q.
Proof.
  intros Hc. destruct (div_int_100_repr a Hc) as (j & Hj & Hq & He).
  destruct (div_int a 100) as [q e]. cbn [coef exp] in *.
  transitivity (toQ (mk (q * 10 ^ j) (exp a - 2))).
  - rewrite toQ_shift by lia. subst e. reflexivity.
  - rewrite Hq. unfold toQ. cbn [coef exp].
    replace (exp a - 2) with (exp a + (-2)) by lia.
    rewrite Qpower_plus by exact Q10_nz.
    change (inject_Z 10 ^ (-2))%Q with (/ inject_Z 100)%Q.
    field.
Qed.

End DecimalFacts.

(** ** [InvoiceLine.calculate_totals] *)
Section InvoiceLineFacts.

Import Decimal.

Lemma mul_small (a b : t) :
  Z.abs (coef a * coef b) < 10 ^ prec ->
  mul a b = mk (coef a * coef b) (exp a + exp b).
Proof. intros H. unfold mul. apply round_ctx_small. exact H. Qed.

Lemma column_small (m p : Z) (d : t) :
  column m p d -> m <= prec -> Z.abs (coef d) < 10 ^ prec.
Proof.
  intros [_ H] Hm. eapply Z.lt_le_trans; [exact H|].
  apply Z.pow_le_mono_r; lia.
Qed.

(** A percentage divided by 100. *)
Lemma percent_div_repr (d : t) :
  column 5 2 d ->
  exists j, 0 <= j /\
    coef (div_int d 100) * 10 ^ j = coef d /\
    exp (div_int d 100) = -4 + j.
Proof.
  intros Hd.
  destruct (div_int_100_repr d) as (j & Hj & Hq & He).
  { apply (column_small 5 2); [exact Hd | unfold prec; lia]. }
  exists j. destruct Hd as [He2 _]. rewrite He2 in He.
  split; [exact Hj|]. split; [exact Hq|]. lia.
Qed.

Lemma percent_div_coef_le (d : t) :
  column 5 2 d -> Z.abs (coef (div_int d 100)) <= Z.abs (coef d).
Proof.
  intros Hd. destruct (percent_div_repr d Hd) as (j & Hj & Hq & _).
  pose proof (pow10_pos j Hj). rewrite <- Hq, Z.abs_mul.
  rewrite (Z.abs_eq (10 ^ j)) by lia. nia.
Qed.

Lemma discount_factor_coef (d : t) :
  column 5 2 d ->
  Z.abs (coef (add_exact (of_int 1) (neg (div_int d 100))))
  <= 10 ^ 4 + Z.abs (coef d).
Proof.
  intros Hd. pose proof (percent_div_coef_le d Hd) as Hle.
  destruct (percent_div_repr d Hd) as (j & Hj & Hq & He).
  destruct Hd as [_ Hb].
  unfold add_exact. cbn [coef exp of_int neg]. rewrite He.
  destruct (Z_le_gt_dec j 4) as [Hj4|Hj4].
  - rewrite Z.min_r by lia.
    replace (-4 + j - (-4 + j)) with 0 by lia.
    replace (0 - (-4 + j)) with (4 - j) by lia.
    assert (0 < 10 ^ (4 - j) <= 10 ^ 4).
    { split; [apply pow10_pos; lia | apply Z.pow_le_mono_r; lia]. }
    rewrite Z.pow_0_r. lia.
  - rewrite Z.min_l by lia.
    assert (Hx : coef (div_int d 100) = 0).
    { destruct (Z.eq_dec (coef (div_int d 100)) 0) as [|Hnz]; [assumption|exfalso].
      assert (10 ^ 5 <= 10 ^ j) by (apply Z.pow_le_mono_r; lia).
      assert (Z.abs (coef d) = Z.abs (coef (div_int d 100)) * 10 ^ j).
      { rewrite <- Hq, Z.abs_mul. f_equal. apply Z.abs_eq. lia. }
      nia. }
    rewrite Hx. replace (0 - 0) with 0 by lia. rewrite Z.pow_0_r.
    change (10 ^ 4) with 10000. lia.
Qed.

End InvoiceLineFacts.

(** Within the precision of the context the line computation is exact. *)
Lemma line_totals_exact
    (adding : bool) (self : InvoiceLine.t) (table : list InvoiceLine.t) :
  column 5 2 (InvoiceLine.discount_percent self) ->
  column 5 2 (InvoiceLine.tax_rate self) ->
  Z.abs (Decimal.coef (InvoiceLine.quantity self)
         * Decimal.coef (InvoiceLine.unit_price self))
  * (10 ^ 4 + Z.abs (Decimal.coef (InvoiceLine.discount_percent self)))
  * Z.max 1 (Z.abs (Decimal.coef (InvoiceLine.tax_rate self)))
  < 10 ^ Decimal.prec ->
  let self' := fst (InvoiceLine.calculate_totals adding self table) in
  (Decimal.toQ (InvoiceLine.line_total self')
   == Decimal.toQ (InvoiceLine.quantity self)
      * Decimal.toQ (InvoiceLine.unit_price self)
      * (1 - Decimal.toQ (InvoiceLine.discount_percent self) / 100))%Q
  /\
  (Decimal.toQ (InvoiceLine.tax_amount self')
   == Decimal.toQ (InvoiceLine.line_total self')
      * (Decimal.toQ (InvoiceLine.tax_rate self) / 100))%Q.
Proof.
  intros Hd Hr Hfit self'. subst self'.
  unfold InvoiceLine.calculate_totals.
  cbn [fst InvoiceLine.set_totals InvoiceLine.line_total InvoiceLine.tax_amount].
  destruct self as [pk inv ln pr sv ds q p d lt r ta acc].
  cbn [InvoiceLine.quantity InvoiceLine.unit_price
       InvoiceLine.discount_percent InvoiceLine.tax_rate] in *.
  pose proof (discount_factor_coef d Hd) as Hdf.
  pose proof (percent_div_coef_le r Hr) as Hrc.
  set (qp := Decimal.coef q * Decimal.coef p) in *.
  set (D := 10 ^ 4 + Z.abs (Decimal.coef d)) in *.
  set (R := Z.max 1 (Z.abs (Decimal.coef r))) in *.
  set (dfe := Decimal.add_exact (Decimal.of_int 1)
                (Decimal.neg (Decimal.div_int d 100))) in *.
  assert (HD : 1 <= D) by (subst D; change (10 ^ 4) with 10000; lia).
  assert (HR : 1 <= R) by (subst R; lia).
  assert (Hqp0 : 0 <= Z.abs qp) by lia.
  assert (HqpD : Z.abs qp <= Z.abs qp * D) by nia.
  assert (HqpDR : Z.abs qp * D <= Z.abs qp * D * R) by nia.
  assert (Hqp : Z.abs qp < 10 ^ Decimal.prec) by lia.
  assert (Hdfs : Z.abs (Decimal.coef dfe) < 10 ^ Decimal.prec).
  { assert (D < 10 ^ Decimal.prec).
    { subst D. destruct Hd as [_ Hb]. change (10 ^ 5) with 100000 in Hb.
      change (10 ^ 4) with 10000. change (10 ^ Decimal.prec) with (10 ^ 28).
      change (10 ^ 28) with 10000000000000000000000000000. lia. }
    lia. }
  assert (Edf : Decimal.sub (Decimal.of_int 1) (Decimal.div_int d 100) = dfe).
  { unfold Decimal.sub, Decimal.add. fold dfe. apply round_ctx_small. exact Hdfs. }
  rewrite Edf.
  rewrite (mul_small q p) by exact Hqp. fold qp.
  assert (Hsub : Z.abs (qp * Decimal.coef dfe) < 10 ^ Decimal.prec).
  { rewrite Z.abs_mul. nia. }
  rewrite (mul_small (Decimal.mk qp _) dfe) by exact Hsub.
  cbn [Decimal.coef Decimal.exp].
  assert (Htax : Z.abs (qp * Decimal.coef dfe
                        * Decimal.coef (Decimal.div_int r 100))
                 < 10 ^ Decimal.prec).
  { rewrite !Z.abs_mul.
    assert (Z.abs (Decimal.coef (Decimal.div_int r 100)) <= R) by (subst R; lia).
    assert (0 <= Z.abs qp) by lia.
    assert (0 <= Z.abs (Decimal.coef dfe)) by lia.
    assert (Z.abs qp * Z.abs (Decimal.coef dfe) <= Z.abs qp * D) by nia.
    assert (Z.abs qp * Z.abs (Decimal.coef dfe)
            * Z.abs (Decimal.coef (Decimal.div_int r 100))
            <= Z.abs qp * D * R).
    { apply Z.mul_le_mono_nonneg; nia. }
    lia. }
  assert (Qdf : (Decimal.toQ dfe
                 == 1 - Decimal.toQ d / 100)%Q).
  { subst dfe. rewrite toQ_add_exact, toQ_neg, toQ_of_int.
    rewrite toQ_div_int_100
      by (apply (column_small 5 2); [exact Hd | unfold Decimal.prec; lia]).
    reflexivity. }
  assert (Qlt : (Decimal.toQ
                   (Decimal.mk (qp * Decimal.coef dfe)
                      (Decimal.exp q + Decimal.exp p + Decimal.exp dfe))
                 == Decimal.toQ q * Decimal.toQ p
                    * (1 - Decimal.toQ d / 100))%Q).
  { rewrite (toQ_mul_exact (Decimal.mk qp (Decimal.exp q + Decimal.exp p)) dfe).
    subst qp. rewrite (toQ_mul_exact q p), Qdf. reflexivity. }
  split; [exact Qlt|].
  rewrite toQ_mul by exact Htax.
  rewrite toQ_div_int_100
    by (apply (column_small 5 2); [exact Hr | unfold Decimal.prec; lia]).
  reflexivity.
Qed.

(** C3, as amended.  For every invoice line whose [discount_percent] and
    [tax_rate] are held as [DecimalField(max_digits=5, decimal_places=2)]
    columns hold them, and whose products stay within the 28 significant
    digits of the Decimal context, [calculate_totals] yields
    [line_total = quantity * unit_price * (1 - discount_percent / 100)] and
    [tax_amount = line_total * tax_rate / 100], as rational numbers. *)
Theorem C3_line_totals_within_precision
    (adding : bool) (self : InvoiceLine.t) (table : list InvoiceLine.t) :
  column 5 2 (InvoiceLine.discount_percent self) ->
  column 5 2 (InvoiceLine.tax_rate self) ->
  Z.abs (Decimal.coef (InvoiceLine.quantity self)
         * Decimal.coef (InvoiceLine.unit_price self))
  * (10 ^ 4 + Z.abs (Decimal.coef (InvoiceLine.discount_percent self)))
  * Z.max 1 (Z.abs (Decimal.coef (InvoiceLine.tax_rate self)))
  < 10 ^ Decimal.prec ->
  let self' := fst (InvoiceLine.calculate_totals adding self table) in
  (Decimal.toQ (InvoiceLine.line_total self')
   == Decimal.toQ (InvoiceLine.quantity self)
      * Decimal.toQ (InvoiceLine.unit_price self)
      * (1 - Decimal.toQ (InvoiceLine.discount_percent self) / 100))%Q
  /\
  (Decimal.toQ (InvoiceLine.tax_amount self')
   == Decimal.toQ (InvoiceLine.line_total self')
      * (Decimal.toQ (InvoiceLine.tax_rate self) / 100))%Q.
Proof. exact (line_totals_exact adding self table). Qed.

(** The Scenario A line satisfies the hypotheses of C3. *)
Lemma C3_line_totals_witness :
  let self' := fst (InvoiceLine.calculate_totals true scenario_line []) in
  (Decimal.toQ (InvoiceLine.line_total self')
   == Decimal.toQ (InvoiceLine.quantity scenario_line)
      * Decimal.toQ (InvoiceLine.unit_price scenario_line)
      * (1 - Decimal.toQ (InvoiceLine.discount_percent scenario_line) / 100))%Q
  /\
  (Decimal.toQ (InvoiceLine.tax_amount self')
   == Decimal.toQ (InvoiceLine.line_total self')
      * (Decimal.toQ (InvoiceLine.tax_rate scenario_line) / 100))%Q.
Proof.
  apply (C3_line_totals_within_precision true scenario_line []).
  - split; [reflexivity | vm_compute; reflexivity].
  - split; [reflexivity | vm_compute; reflexivity].
  - vm_compute; reflexivity.
Defined.

(** C3 as stated fails on a line that fits its columns: for quantity
    123456789.0123 at unit price 987654321.9876 with discount and tax
    12.34 %, the exact line total has 30 significant digits and is rounded
    to the 28 of the Decimal context, so [line_total] is not the exact
    product (nor is [tax_amount] the exact [line_total * tax_rate / 100]);
    the total is about 1.07e17 and still fits its own column. *)
Lemma C3_counterexample :
  let self' := fst (InvoiceLine.calculate_totals true wide_line []) in
  column 15 4 (InvoiceLine.quantity wide_line) /\
  column 15 4 (InvoiceLine.unit_price wide_line) /\
  column 5 2 (InvoiceLine.discount_percent wide_line) /\
  column 5 2 (InvoiceLine.tax_rate wide_line) /\
  InvoiceLine.line_total self'
    = Decimal.mk 1068861445508654091769045010 (-10) /\
  ~ (Decimal.toQ (InvoiceLine.line_total self')
     == Decimal.toQ (InvoiceLine.quantity wide_line)
        * Decimal.toQ (InvoiceLine.unit_price wide_line)
        * (1 - Decimal.toQ (InvoiceLine.discount_percent wide_line) / 100))%Q /\
  ~ (Decimal.toQ (InvoiceLine.tax_amount self')
     == Decimal.toQ (InvoiceLine.line_total self')
        * (Decimal.toQ (InvoiceLine.tax_rate wide_line) / 100))%Q.
Proof.
  cbv zeta.
  repeat (split; [first [split; [reflexivity | vm_compute; reflexivity]
                        | vm_compute; reflexivity]|]).
  split; intros H; vm_compute in H; discriminate H.
Qed.

(** ** Sums of columns and the invoice totals *)
Section InvoiceFacts.

Import Decimal.

Lemma toQ_fold_add_exact (rest : list t) : forall d,
  (toQ (fold_left add_exact rest d) == toQ d + sumQ rest)%Q.
Proof.
  induction rest as [|x rest IH]; intros d; cbn [fold_left].
  - unfold sumQ; cbn. ring.
  - rewrite IH, toQ_add_exact. unfold sumQ; cbn [map fold_right]. ring.
Qed.

Lemma toQ_zero (e : Z) : (toQ (mk 0 e) == 0)%Q.
Proof. unfold toQ; cbn [coef exp]. ring. Qed.

Lemma toQ_or_zero_Sum (col : list t) : (toQ (or_zero (Sum col)) == sumQ col)%Q.
Proof.
  destruct col as [|d rest]; cbn [Sum or_zero].
  - reflexivity.
  - pose proof (toQ_fold_add_exact rest d) as H.
    unfold truthy. destruct (coef (fold_left add_exact rest d) =? 0) eqn:E;
      cbn [negb].
    + apply Z.eqb_eq in E. rewrite <- H.
      destruct (fold_left add_exact rest d) as [c e]. cbn [coef] in E.
      subst c. rewrite toQ_zero. reflexivity.
    + rewrite H. unfold sumQ; cbn [map fold_right]. reflexivity.
Qed.

(** *** At most two decimal places *)







(** Half-up rounding to two places leaves such a value as it is. *)
Lemma spec_round_half_up_two_places (d : t) :
  two_places d -> eqb (spec_round_half_up d) d = true.
Proof.
  unfold two_places. intros H. apply eqb_toQ. unfold spec_round_half_up.
  destruct (-2 <=? exp d) eqn:E; [|apply Z.leb_gt in E; lia].
  rewrite toQ_shift by lia.
  replace (-2 + (exp d + 2)) with (exp d) by lia. destruct d; reflexivity.
Qed.

Lemma Forall_map_filter {A B : Type} (P : B -> Prop) (f : A -> B)
    (keep : A -> bool) (l : list A) :
  (forall x, In x (filter keep l) -> P (f x)) ->
  Forall P (map f (filter keep l)).
Proof.
  intros H. apply Forall_forall. intros y Hy.
  apply in_map_iff in Hy. destruct Hy as (x & <- & Hx). apply H. exact Hx.
Qed.

(** *** Rows under their keys *)

Lemma stored_upsert (x : Invoice.t) (table : list Invoice.t) :
  stored_invoice (Invoice.id x) (Invoice.upsert x table) = Some x.
Proof.
  unfold stored_invoice.
  induction table as [|row rest IH]; cbn [Invoice.upsert find].
  - rewrite Z.eqb_refl. reflexivity.
  - destruct (Invoice.id row =? Invoice.id x) eqn:E; cbn [find].
    + rewrite Z.eqb_refl. reflexivity.
    + rewrite E. exact IH.
Qed.

Lemma stored_upsert_other (x : Invoice.t) (table : list Invoice.t) (pk : uuid) :
  pk <> Invoice.id x ->
  stored_invoice pk (Invoice.upsert x table) = stored_invoice pk table.
Proof.
  intros Hpk. unfold stored_invoice.
  induction table as [|row rest IH]; cbn [Invoice.upsert find].
  - destruct (Invoice.id x =? pk) eqn:E; [apply Z.eqb_eq in E; congruence|].
    reflexivity.
  - destruct (Invoice.id row =? Invoice.id x) eqn:E; cbn [find].
    + apply Z.eqb_eq in E.
      destruct (Invoice.id x =? pk) eqn:E1; [apply Z.eqb_eq in E1; congruence|].
      destruct (Invoice.id row =? pk) eqn:E2; [apply Z.eqb_eq in E2; congruence|].
      reflexivity.
    + destruct (Invoice.id row =? pk); [reflexivity | exact IH].
Qed.

Lemma upsert_idempotent (x : Invoice.t) (table : list Invoice.t) :
  Invoice.upsert x (Invoice.upsert x table) = Invoice.upsert x table.
Proof.
  induction table as [|row rest IH]; cbn [Invoice.upsert].
  - rewrite Z.eqb_refl. reflexivity.
  - destruct (Invoice.id row =? Invoice.id x) eqn:E; cbn [Invoice.upsert].
    + rewrite Z.eqb_refl. reflexivity.
    + rewrite E, IH. reflexivity.
Qed.

End InvoiceFacts.

(** ** What the columns hold *)
Section StorageFacts.

Import Decimal.


Lemma exp_round_to_places (dp : Z) (d : t) : exp (round_to_places dp d) = - dp.
Proof. unfold round_to_places. destruct (- dp <=? exp d); reflexivity. Qed.

Lemma to_column_Some (md dp : Z) (d r : t) :
  to_column md dp d = Some r ->
  r = round_to_places dp d /\ Z.abs (coef r) < 10 ^ md.
Proof.
  unfold to_column. intros H.
  destruct (Z.abs (coef (round_to_places dp d)) <? 10 ^ md) eqn:E;
    [|discriminate H].
  injection H as <-. split; [reflexivity|]. apply Z.ltb_lt. exact E.
Qed.

(** What a column holds has the format of the column. *)
Lemma to_column_column (md dp : Z) (d r : t) :
  to_column md dp d = Some r -> column md dp r.
Proof.
  intros H. destruct (to_column_Some _ _ _ _ H) as [-> Hb].
  split; [apply exp_round_to_places | exact Hb].
Qed.

Lemma round_to_places_column (md dp : Z) (d : t) :
  column md dp d -> round_to_places dp d = d.
Proof.
  intros [He _]. destruct d as [c e]. cbn [exp] in He. subst e.
  unfold round_to_places. cbn [exp coef]. rewrite Z.leb_refl.
  replace (- dp + dp) with 0 by lia. rewrite Z.pow_0_r, Z.mul_1_r.
  reflexivity.
Qed.

(** A value in the format of its column is held as it is. *)
Lemma column_to_column (md dp : Z) (d : t) :
  column md dp d -> to_column md dp d = Some d.
Proof.
  intros H. unfold to_column. rewrite (round_to_places_column md dp d H).
  destruct H as [_ Hb]. apply Z.ltb_lt in Hb. rewrite Hb. reflexivity.
Qed.

Lemma to_column_again (md dp : Z) (d r : t) :
  to_column md dp d = Some r -> to_column md dp r = Some r.
Proof. intros H. apply column_to_column. exact (to_column_column _ _ _ _ H). Qed.




End StorageFacts.

Section RowFacts.

(** The row of an invoice: its amounts through their columns, every other
    field as on the instance. *)
Lemma invoice_to_row_Some (x row : Invoice.t) :
  Invoice.to_row x = Some row ->
  (to_column 20 2 (Invoice.subtotal x) = Some (Invoice.subtotal row) /\
   to_column 20 2 (Invoice.tax_amount x) = Some (Invoice.tax_amount row) /\
   to_column 20 2 (Invoice.discount_amount x)
     = Some (Invoice.discount_amount row) /\
   to_column 20 2 (Invoice.total_amount x) = Some (Invoice.total_amount row) /\
   to_column 20 2 (Invoice.paid_amount x) = Some (Invoice.paid_amount row) /\
   to_column 20 2 (Invoice.balance_due x) = Some (Invoice.balance_due row) /\
   to_column 15 6 (Invoice.exchange_rate x)
     = Some (Invoice.exchange_rate row)) /\
  row = Invoice.mk (Invoice.id x) (Invoice.company x) (Invoice.invoice_type x)
          (Invoice.invoice_number x) (Invoice.invoice_date x)
          (Invoice.due_date x) (Invoice.customer x) (Invoice.supplier x)
          (Invoice.subtotal row) (Invoice.tax_amount row)
          (Invoice.discount_amount row) (Invoice.total_amount row)
          (Invoice.paid_amount row) (Invoice.balance_due row)
          (Invoice.currency x) (Invoice.exchange_rate row) (Invoice.status x)
          (Invoice.payment_terms x) (Invoice.notes x) (Invoice.created_by x)
          (Invoice.created_at x) (Invoice.updated_at x).
Proof.
  unfold Invoice.to_row. intros H. split_columns H. injection H as <-.
  cbn [Invoice.subtotal Invoice.tax_amount Invoice.discount_amount
       Invoice.total_amount Invoice.paid_amount Invoice.balance_due
       Invoice.exchange_rate].
  repeat split; reflexivity.
Qed.

Lemma invoice_to_row_id (x row : Invoice.t) :
  Invoice.to_row x = Some row ->
  Invoice.id row = Invoice.id x /\
  Invoice.invoice_number row = Invoice.invoice_number x /\
  Invoice.status row = Invoice.status x /\
  Invoice.created_at row = Invoice.created_at x /\
  Invoice.updated_at row = Invoice.updated_at x.
Proof.
  intros H. destruct (invoice_to_row_Some x row H) as [_ ->].
  repeat split; reflexivity.
Qed.

Lemma invoice_to_row_set_stamps (x : Invoice.t) (c u : datetime) :
  Invoice.to_row (Invoice.set_stamps x c u)
  = option_map (fun row => Invoice.set_stamps row c u) (Invoice.to_row x).
Proof.
  unfold Invoice.to_row, Invoice.set_stamps.
  cbn [Invoice.subtotal Invoice.tax_amount Invoice.discount_amount
       Invoice.total_amount Invoice.paid_amount Invoice.balance_due
       Invoice.exchange_rate Invoice.id Invoice.company Invoice.invoice_type
       Invoice.invoice_number Invoice.invoice_date Invoice.due_date
       Invoice.customer Invoice.supplier Invoice.currency Invoice.status
       Invoice.payment_terms Invoice.notes Invoice.created_by
       Invoice.created_at Invoice.updated_at].
  case_columns; reflexivity.
Qed.

(** A stored row is written back as it is. *)
Lemma invoice_to_row_again (x row : Invoice.t) :
  Invoice.to_row x = Some row -> Invoice.to_row row = Some row.
Proof.
  intros H.
  destruct (invoice_to_row_Some x row H)
    as ((H1 & H2 & H3 & H4 & H5 & H6 & H7) & _).
  apply to_column_again in H1, H2, H3, H4, H5, H6, H7.
  unfold Invoice.to_row. rewrite H1, H2, H3, H4, H5, H6, H7.
  destruct row; reflexivity.
Qed.

(** The row of a line: its amounts through their columns, every other field
    as on the instance. *)
Lemma line_to_row_Some (x row : InvoiceLine.t) :
  InvoiceLine.to_row x = Some row ->
  (to_column 15 4 (InvoiceLine.quantity x) = Some (InvoiceLine.quantity row) /\
   to_column 15 4 (InvoiceLine.unit_price x)
     = Some (InvoiceLine.unit_price row) /\
   to_column 5 2 (InvoiceLine.discount_percent x)
     = Some (InvoiceLine.discount_percent row) /\
   to_column 20 2 (InvoiceLine.line_total x)
     = Some (InvoiceLine.line_total row) /\
   to_column 5 2 (InvoiceLine.tax_rate x) = Some (InvoiceLine.tax_rate row) /\
   to_column 20 2 (InvoiceLine.tax_amount x)
     = Some (InvoiceLine.tax_amount row)) /\
  row = InvoiceLine.mk (InvoiceLine.id x) (InvoiceLine.invoice x)
          (InvoiceLine.line_number x) (InvoiceLine.product x)
          (InvoiceLine.service x) (InvoiceLine.description x)
          (InvoiceLine.quantity row) (InvoiceLine.unit_price row)
          (InvoiceLine.discount_percent row) (InvoiceLine.line_total row)
          (InvoiceLine.tax_rate row) (InvoiceLine.tax_amount row)
          (InvoiceLine.revenue_account x).
Proof.
  unfold InvoiceLine.to_row. intros H. split_columns H. injection H as <-.
  cbn [InvoiceLine.quantity InvoiceLine.unit_price
       InvoiceLine.discount_percent InvoiceLine.line_total
       InvoiceLine.tax_rate InvoiceLine.tax_amount].
  repeat split; reflexivity.
Qed.

Lemma line_to_row_id (x row : InvoiceLine.t) :
  InvoiceLine.to_row x = Some row ->
  InvoiceLine.id row = InvoiceLine.id x /\
  InvoiceLine.invoice row = InvoiceLine.invoice x.
Proof.
  intros H. destruct (line_to_row_Some x row H) as [_ ->].
  split; reflexivity.
Qed.

Lemma line_to_row_again (x row : InvoiceLine.t) :
  InvoiceLine.to_row x = Some row -> InvoiceLine.to_row row = Some row.
Proof.
  intros H.
  destruct (line_to_row_Some x row H) as ((H1 & H2 & H3 & H4 & H5 & H6) & _).
  apply to_column_again in H1, H2, H3, H4, H5, H6.
  unfold InvoiceLine.to_row. rewrite H1, H2, H3, H4, H5, H6.
  destruct row; reflexivity.
Qed.

End RowFacts.

(** ** Amounts that fit their columns are added without rounding *)
Section CentsFacts.

Import Decimal.

Lemma cents_within_column (d : t) : column 20 2 d -> cents_within (10 ^ 20) d.
Proof.
  intros [He Hc]. unfold cents_within. rewrite He.
  change (-2 + 2) with 0. rewrite Z.pow_0_r. lia.
Qed.

Lemma cents_within_mono (B B' : Z) (d : t) :
  cents_within B d -> B <= B' -> cents_within B' d.
Proof. unfold cents_within. intros [He Hc] HB. lia. Qed.

Lemma cents_within_coef (B : Z) (d : t) :
  cents_within B d -> Z.abs (coef d) <= B.
Proof.
  intros [He Hc]. pose proof (pow10_pos (exp d + 2) ltac:(lia)). nia.
Qed.

Lemma cents_within_neg (B : Z) (d : t) :
  cents_within B d -> cents_within B (neg d).
Proof.
  unfold cents_within, neg; cbn [coef exp]. rewrite Z.abs_opp. tauto.
Qed.

Lemma cents_within_zero : cents_within 0 (of_int 0).
Proof. unfold cents_within, of_int; cbn [coef exp]. cbn. lia. Qed.

Lemma cents_within_add_exact (B1 B2 : Z) (a b : t) :
  cents_within B1 a -> cents_within B2 b ->
  cents_within (B1 + B2) (add_exact a b).
Proof.
  intros [Hea Hca] [Heb Hcb]. unfold cents_within, add_exact; cbn [coef exp].
  set (e := Z.min (exp a) (exp b)).
  assert (He : -2 <= e) by (subst e; lia).
  assert (Hle : e <= exp a /\ e <= exp b) by (subst e; lia).
  split; [exact He|].
  set (p := 10 ^ (e + 2)).
  assert (Hp : 0 < p) by (apply pow10_pos; lia).
  assert (Pa : 10 ^ (exp a - e) * p = 10 ^ (exp a + 2)).
  { subst p. rewrite <- Z.pow_add_r by lia. f_equal. lia. }
  assert (Pb : 10 ^ (exp b - e) * p = 10 ^ (exp b + 2)).
  { subst p. rewrite <- Z.pow_add_r by lia. f_equal. lia. }
  pose proof (pow10_pos (exp a - e) ltac:(lia)) as Hpa.
  pose proof (pow10_pos (exp b - e) ltac:(lia)) as Hpb.
  pose proof (Z.abs_triangle (coef a * 10 ^ (exp a - e))
                (coef b * 10 ^ (exp b - e))) as Htri.
  rewrite !Z.abs_mul in Htri.
  rewrite (Z.abs_eq (10 ^ (exp a - e))) in Htri by lia.
  rewrite (Z.abs_eq (10 ^ (exp b - e))) in Htri by lia.
  assert (Xa : Z.abs (coef a) * 10 ^ (exp a - e) * p
               = Z.abs (coef a) * 10 ^ (exp a + 2))
    by (rewrite <- Pa; ring).
  assert (Xb : Z.abs (coef b) * 10 ^ (exp b - e) * p
               = Z.abs (coef b) * 10 ^ (exp b + 2))
    by (rewrite <- Pb; ring).
  apply Z.le_trans with
    ((Z.abs (coef a) * 10 ^ (exp a - e)
      + Z.abs (coef b) * 10 ^ (exp b - e)) * p).
  - apply Z.mul_le_mono_nonneg_r; lia.
  - rewrite Z.mul_add_distr_r, Xa, Xb. lia.
Qed.

Lemma cents_within_fold (rest : list t) : forall d B,
  cents_within B d -> Forall (column 20 2) rest ->
  cents_within (B + Z.of_nat (List.length rest) * 10 ^ 20)
    (fold_left add_exact rest d).
Proof.
  induction rest as [|x rest IH]; intros d B Hd Hr; cbn [fold_left List.length].
  - apply (cents_within_mono B); [exact Hd | lia].
  - inversion Hr as [|? ? Hx Hrest]; subst.
    apply (cents_within_mono (B + 10 ^ 20 + Z.of_nat (List.length rest) * 10 ^ 20)).
    + apply IH; [|exact Hrest].
      apply cents_within_add_exact; [exact Hd | apply cents_within_column; exact Hx].
    + lia.
Qed.

Lemma cents_within_or_zero_Sum (col : list t) :
  Forall (column 20 2) col ->
  cents_within (Z.of_nat (List.length col) * 10 ^ 20) (or_zero (Sum col)).
Proof.
  intros H. destruct col as [|d rest]; cbn [Sum or_zero].
  - apply (cents_within_mono 0); [exact cents_within_zero | cbn; lia].
  - inversion H as [|? ? Hd Hrest]; subst.
    destruct (truthy (fold_left add_exact rest d)).
    + apply (cents_within_mono (10 ^ 20 + Z.of_nat (List.length rest) * 10 ^ 20)).
      * apply cents_within_fold; [apply cents_within_column; exact Hd | exact Hrest].
      * cbn [List.length]. lia.
    + apply (cents_within_mono 0); [exact cents_within_zero|].
      pose proof (pow10_pos 20 ltac:(lia)). nia.
Qed.

Lemma cents_within_round (B : Z) (d : t) :
  cents_within B d -> B < 10 ^ prec -> round_ctx d = d.
Proof.
  intros Hd HB. apply round_ctx_small.
  pose proof (cents_within_coef B d Hd). lia.
Qed.

Lemma cents_within_add (B1 B2 : Z) (a b : t) :
  cents_within B1 a -> cents_within B2 b -> B1 + B2 < 10 ^ prec ->
  add a b = add_exact a b /\ cents_within (B1 + B2) (add a b).
Proof.
  intros Ha Hb HB. pose proof (cents_within_add_exact B1 B2 a b Ha Hb) as H.
  unfold add. rewrite (cents_within_round _ _ H HB). split; [reflexivity|exact H].
Qed.

Lemma cents_within_sub (B1 B2 : Z) (a b : t) :
  cents_within B1 a -> cents_within B2 b -> B1 + B2 < 10 ^ prec ->
  (toQ (sub a b) == toQ a - toQ b)%Q /\ cents_within (B1 + B2) (sub a b).
Proof.
  intros Ha Hb HB. unfold sub.
  destruct (cents_within_add B1 B2 a (neg b) Ha (cents_within_neg _ _ Hb) HB)
    as [E H].
  split; [|exact H]. rewrite E, toQ_add_exact, toQ_neg. ring.
Qed.

(** The computation of [Invoice.calculate_totals] on amounts that fit
    their columns, for an invoice of at most ten million lines. *)
Lemma invoice_totals_exact (lt ta : list t) (discount paid : t) :
  Forall (column 20 2) lt -> Forall (column 20 2) ta ->
  column 20 2 discount -> column 20 2 paid ->
  Z.of_nat (List.length lt) <= 10 ^ 7 -> Z.of_nat (List.length ta) <= 10 ^ 7 ->
  let st := or_zero (Sum lt) in
  let tx := or_zero (Sum ta) in
  let tot := sub (add st tx) discount in
  let bal := sub tot paid in
  (toQ st == sumQ lt)%Q /\ (toQ tx == sumQ ta)%Q /\
  (toQ tot == toQ st + toQ tx - toQ discount)%Q /\
  (toQ bal == toQ tot - toQ paid)%Q.
Proof.
  intros Hlt Hta Hd Hp Hn Hm st tx tot bal.
  split; [apply toQ_or_zero_Sum|]. split; [apply toQ_or_zero_Sum|].
  pose proof (cents_within_or_zero_Sum lt Hlt) as Bst. fold st in Bst.
  pose proof (cents_within_or_zero_Sum ta Hta) as Btx. fold tx in Btx.
  pose proof (pow10_pos 20 ltac:(lia)) as P20.
  assert (E27 : 10 ^ 7 * 10 ^ 20 = 10 ^ 27) by reflexivity.
  assert (E28 : 10 ^ prec = 10 * 10 ^ 27) by reflexivity.
  assert (E2720 : 10 ^ 20 <= 10 ^ 27) by (apply Z.pow_le_mono_r; lia).
  set (P27 := 10 ^ 27) in *. set (Q20 := 10 ^ 20) in *.
  assert (Bst' : cents_within P27 st)
    by (apply (cents_within_mono _ _ _ Bst); nia).
  assert (Btx' : cents_within P27 tx)
    by (apply (cents_within_mono _ _ _ Btx); nia).
  destruct (cents_within_add P27 P27 st tx Bst' Btx' ltac:(lia)) as [Eadd Badd].
  destruct (cents_within_sub (P27 + P27) Q20 (add st tx) discount Badd
              (cents_within_column _ Hd) ltac:(lia)) as [Qtot Btot].
  fold tot in Qtot, Btot.
  destruct (cents_within_sub (P27 + P27 + Q20) Q20 tot paid Btot
              (cents_within_column _ Hp) ltac:(lia)) as [Qbal _].
  fold bal in Qbal.
  split; [|exact Qbal].
  rewrite Qtot, Eadd, toQ_add_exact. reflexivity.
Qed.

End CentsFacts.

(** ** [save()] and the two [calculate_totals] *)
Section InvoiceTotals.

Lemma existsb_stored (pk : uuid) (table : list Invoice.t) :
  existsb (fun row => Invoice.id row =? pk) table = true
  <-> stored_invoice pk table <> None.
Proof.
  unfold stored_invoice. induction table as [|row rest IH]; cbn [existsb find].
  - split; [discriminate | intros H; contradiction H; reflexivity].
  - destruct (Invoice.id row =? pk); cbn [orb].
    + split; [discriminate | reflexivity].
    + exact IH.
Qed.

Lemma existsb_upsert (x : Invoice.t) (table : list Invoice.t) :
  existsb (fun row => Invoice.id row =? Invoice.id x) (Invoice.upsert x table)
  = true.
Proof.
  apply existsb_stored. rewrite stored_upsert. discriminate.
Qed.

Lemma line_upsert_idempotent (x : InvoiceLine.t) (table : list InvoiceLine.t) :
  InvoiceLine.upsert x (InvoiceLine.upsert x table) = InvoiceLine.upsert x table.
Proof.
  induction table as [|row rest IH]; cbn [InvoiceLine.upsert].
  - rewrite Z.eqb_refl. reflexivity.
  - destruct (InvoiceLine.id row =? InvoiceLine.id x) eqn:E;
      cbn [InvoiceLine.upsert].
    + rewrite Z.eqb_refl. reflexivity.
    + rewrite E, IH. reflexivity.
Qed.

(** *** The instance handed to [save()] *)

Lemma calculate_totals_save (now : datetime) (adding : bool) (self : Invoice.t)
    (lines : list InvoiceLine.t) (invoices : list Invoice.t) :
  Invoice.calculate_totals now adding self lines invoices
  = Invoice.save now adding (with_totals self lines) invoices.
Proof. reflexivity. Qed.

Lemma set_totals_frame (self : Invoice.t) (st ta tot bal : Decimal.t) :
  let x := Invoice.set_totals self st ta tot bal in
  x = Invoice.set_totals self (Invoice.subtotal x) (Invoice.tax_amount x)
        (Invoice.total_amount x) (Invoice.balance_due x).
Proof. reflexivity. Qed.

Lemma set_totals_inputs (self : Invoice.t) (st ta tot bal : Decimal.t) :
  let x := Invoice.set_totals self st ta tot bal in
  Invoice.id x = Invoice.id self /\
  Invoice.discount_amount x = Invoice.discount_amount self /\
  Invoice.paid_amount x = Invoice.paid_amount self /\
  Invoice.created_at x = Invoice.created_at self /\
  Invoice.status x = Invoice.status self /\
  Invoice.currency x = Invoice.currency self /\
  Invoice.exchange_rate x = Invoice.exchange_rate self.
Proof. repeat split. Qed.

(** The computation replaces the four totals and nothing else. *)
Lemma with_totals_frame (self : Invoice.t) (lines : list InvoiceLine.t) :
  let x := with_totals self lines in
  x = Invoice.set_totals self (Invoice.subtotal x) (Invoice.tax_amount x)
        (Invoice.total_amount x) (Invoice.balance_due x).
Proof. unfold with_totals. cbv zeta. apply set_totals_frame. Qed.

Lemma with_totals_inputs (self : Invoice.t) (lines : list InvoiceLine.t) :
  let x := with_totals self lines in
  Invoice.id x = Invoice.id self /\
  Invoice.discount_amount x = Invoice.discount_amount self /\
  Invoice.paid_amount x = Invoice.paid_amount self /\
  Invoice.created_at x = Invoice.created_at self /\
  Invoice.status x = Invoice.status self /\
  Invoice.currency x = Invoice.currency self /\
  Invoice.exchange_rate x = Invoice.exchange_rate self.
Proof. unfold with_totals. cbv zeta. apply set_totals_inputs. Qed.

(** The totals depend on the key, the discount and the paid amount of the
    instance and on the lines only. *)
Lemma with_totals_ext (a b : Invoice.t) (lines : list InvoiceLine.t) :
  Invoice.id a = Invoice.id b ->
  Invoice.discount_amount a = Invoice.discount_amount b ->
  Invoice.paid_amount a = Invoice.paid_amount b ->
  totals (with_totals a lines) = totals (with_totals b lines).
Proof.
  intros Hid Hd Hp.
  unfold totals, with_totals, Invoice.line_items.
  cbn [Invoice.set_totals Invoice.subtotal Invoice.tax_amount
       Invoice.total_amount Invoice.balance_due].
  rewrite Hid, Hd, Hp. reflexivity.
Qed.

Lemma set_totals_own (x : Invoice.t) :
  Invoice.set_totals x (Invoice.subtotal x) (Invoice.tax_amount x)
    (Invoice.total_amount x) (Invoice.balance_due x) = x.
Proof. destruct x; reflexivity. Qed.

Lemma totals_eq (a b : Invoice.t) :
  totals a = totals b ->
  Invoice.subtotal a = Invoice.subtotal b /\
  Invoice.tax_amount a = Invoice.tax_amount b /\
  Invoice.total_amount a = Invoice.total_amount b /\
  Invoice.balance_due a = Invoice.balance_due b.
Proof. unfold totals. intros H. injection H as H1 H2 H3 H4. auto. Qed.

(** Computing again on the result, whatever its timestamps, gives the
    result. *)
Lemma with_totals_again (self : Invoice.t) (lines : list InvoiceLine.t)
    (c u : datetime) :
  with_totals (Invoice.set_stamps (with_totals self lines) c u) lines
  = Invoice.set_stamps (with_totals self lines) c u.
Proof.
  pose proof (with_totals_ext
                (Invoice.set_stamps (with_totals self lines) c u) self lines
                eq_refl eq_refl eq_refl) as Ht.
  remember (with_totals self lines) as x eqn:Hx in *.
  destruct (totals_eq _ _ Ht) as (H1 & H2 & H3 & H4).
  rewrite (with_totals_frame (Invoice.set_stamps x c u) lines). cbv zeta.
  rewrite H1, H2, H3, H4. destruct x; reflexivity.
Qed.

(** *** What [Invoice.save] returns *)

Lemma set_stamps_set_stamps (x : Invoice.t) (c u c' u' : datetime) :
  Invoice.set_stamps (Invoice.set_stamps x c u) c' u'
  = Invoice.set_stamps x c' u'.
Proof. reflexivity. Qed.

Lemma set_stamps_own (x : Invoice.t) :
  Invoice.set_stamps x (Invoice.created_at x) (Invoice.updated_at x) = x.
Proof. destruct x; reflexivity. Qed.

Lemma totals_set_stamps (x : Invoice.t) (c u : datetime) :
  totals (Invoice.set_stamps x c u) = totals x.
Proof. reflexivity. Qed.

Lemma save_fst (now : datetime) (adding : bool) (x : Invoice.t)
    (table : list Invoice.t) :
  fst (Invoice.save now adding x table)
  = Invoice.set_stamps x
      (if adding
          || negb (existsb (fun row => Invoice.id row =? Invoice.id x) table)
       then now else Invoice.created_at x) now.
Proof. reflexivity. Qed.

Lemma save_snd (now : datetime) (adding : bool) (x : Invoice.t)
    (table : list Invoice.t) :
  snd (Invoice.save now adding x table)
  = match Invoice.to_row (fst (Invoice.save now adding x table)) with
    | None => DataError
    | Some row =>
        if existsb (Invoice.conflicts adding x) table then IntegrityError
        else Saved (Invoice.upsert row table)
    end.
Proof. reflexivity. Qed.

(** A successful [save()] wrote the row of the instance under its key. *)
Lemma save_Saved (now : datetime) (adding : bool) (x : Invoice.t)
    (table table' : list Invoice.t) :
  snd (Invoice.save now adding x table) = Saved table' ->
  exists row,
    Invoice.to_row (fst (Invoice.save now adding x table)) = Some row /\
    existsb (Invoice.conflicts adding x) table = false /\
    table' = Invoice.upsert row table.
Proof.
  rewrite save_snd. intros H.
  destruct (Invoice.to_row (fst (Invoice.save now adding x table)))
    as [row|]; [|discriminate H].
  destruct (existsb (Invoice.conflicts adding x) table); [discriminate H|].
  injection H as <-. exists row. repeat split.
Qed.

(** After a successful [save()] the key of the instance holds its row and
    every other key holds what it held. *)
Lemma save_stored (now : datetime) (adding : bool) (x : Invoice.t)
    (table table' : list Invoice.t) :
  snd (Invoice.save now adding x table) = Saved table' ->
  exists row,
    Invoice.to_row (fst (Invoice.save now adding x table)) = Some row /\
    stored_invoice (Invoice.id x) table' = Some row /\
    (forall pk, pk <> Invoice.id x ->
       stored_invoice pk table' = stored_invoice pk table).
Proof.
  intros H. destruct (save_Saved _ _ _ _ _ H) as (row & Hrow & _ & ->).
  exists row. split; [exact Hrow|].
  destruct (invoice_to_row_id _ _ Hrow) as (Hid & _).
  rewrite save_fst in Hid. cbn [Invoice.set_stamps Invoice.id] in Hid.
  split.
  - rewrite <- Hid. apply stored_upsert.
  - intros pk Hpk. apply stored_upsert_other. rewrite Hid. exact Hpk.
Qed.

Lemma conflicts_weaken (adding : bool) (x row : Invoice.t) :
  Invoice.conflicts false x row = true -> Invoice.conflicts adding x row = true.
Proof.
  unfold Invoice.conflicts.
  destruct (Invoice.id row =? Invoice.id x); [discriminate | trivial].
Qed.

Lemma no_conflicts_weaken (adding : bool) (x : Invoice.t)
    (table : list Invoice.t) :
  existsb (Invoice.conflicts adding x) table = false ->
  existsb (Invoice.conflicts false x) table = false.
Proof.
  induction table as [|old rest IH]; cbn [existsb]; [trivial|].
  intros H. apply orb_false_iff in H. destruct H as [H1 H2].
  rewrite (IH H2), orb_false_r.
  destruct (Invoice.conflicts false x old) eqn:E; [|reflexivity].
  rewrite (conflicts_weaken adding x old E) in H1. discriminate H1.
Qed.

(** Saving again the instance that was just saved breaks no constraint. *)
Lemma no_conflicts_upsert (adding : bool) (x row : Invoice.t)
    (table : list Invoice.t) :
  existsb (Invoice.conflicts adding x) table = false ->
  Invoice.id row = Invoice.id x ->
  existsb (Invoice.conflicts false x) (Invoice.upsert row table) = false.
Proof.
  intros H Hid. apply no_conflicts_weaken in H.
  assert (Hrow : Invoice.conflicts false x row = false).
  { unfold Invoice.conflicts. rewrite Hid, Z.eqb_refl. reflexivity. }
  induction table as [|old rest IH]; cbn [Invoice.upsert existsb].
  - rewrite Hrow. reflexivity.
  - cbn [existsb] in H. apply orb_false_iff in H. destruct H as [H1 H2].
    destruct (Invoice.id old =? Invoice.id row); cbn [existsb].
    + rewrite Hrow, H2. reflexivity.
    + rewrite H1, (IH H2). reflexivity.
Qed.

Lemma conflicts_set_stamps (a : bool) (x : Invoice.t) (c u : datetime) :
  Invoice.conflicts a (Invoice.set_stamps x c u) = Invoice.conflicts a x.
Proof. reflexivity. Qed.

Lemma id_set_stamps (x : Invoice.t) (c u : datetime) :
  Invoice.id (Invoice.set_stamps x c u) = Invoice.id x.
Proof. reflexivity. Qed.

Lemma created_at_set_stamps (x : Invoice.t) (c u : datetime) :
  Invoice.created_at (Invoice.set_stamps x c u) = c.
Proof. reflexivity. Qed.

(** [Invoice.save] in terms of the row of the instance it is given. *)
Lemma save_spec (now : datetime) (adding : bool) (x : Invoice.t)
    (table : list Invoice.t) :
  let c := if adding
              || negb (existsb (fun row => Invoice.id row =? Invoice.id x) table)
           then now else Invoice.created_at x in
  Invoice.save now adding x table
  = (Invoice.set_stamps x c now,
     match Invoice.to_row x with
     | None => DataError
     | Some row =>
         if existsb (Invoice.conflicts adding x) table then IntegrityError
         else Saved (Invoice.upsert (Invoice.set_stamps row c now) table)
     end).
Proof.
  cbv zeta. unfold Invoice.save. rewrite invoice_to_row_set_stamps.
  destruct (Invoice.to_row x); reflexivity.
Qed.

Lemma existsb_upsert_key (r : Invoice.t) (table : list Invoice.t) (pk : uuid) :
  Invoice.id r = pk ->
  existsb (fun row => Invoice.id row =? pk) (Invoice.upsert r table) = true.
Proof. intros <-. apply existsb_upsert. Qed.

Lemma stored_upsert_key (r : Invoice.t) (table : list Invoice.t) (pk : uuid) :
  Invoice.id r = pk -> stored_invoice pk (Invoice.upsert r table) = Some r.
Proof. intros <-. apply stored_upsert. Qed.

Lemma save_twice (now1 now2 : datetime) (adding : bool) (x : Invoice.t)
    (table : list Invoice.t) :
  let first := Invoice.save now1 adding x table in
  let table1 := table_after (snd first) table in
  let second :=
    Invoice.save now2 (adding_after adding (snd first)) (fst first) table1 in
  totals (fst second) = totals (fst first) /\
  option_map totals
    (stored_invoice (Invoice.id x) (table_after (snd second) table1))
  = option_map totals (stored_invoice (Invoice.id x) table1) /\
  (forall t1, snd first = Saved t1 -> exists t2, snd second = Saved t2) /\
  (now2 = now1 -> second = first).
Proof.
  cbv zeta. split; [reflexivity|].
  rewrite (save_spec now1 adding x table). cbv zeta. cbn [fst snd].
  set (stored := existsb (fun row => Invoice.id row =? Invoice.id x) table).
  set (c1 := if adding || negb stored then now1 else Invoice.created_at x).
  destruct (Invoice.to_row x) as [r|] eqn:Hrow.
  - assert (Hid : Invoice.id r = Invoice.id x)
      by (apply (invoice_to_row_id x r Hrow)).
    destruct (existsb (Invoice.conflicts adding x) table) eqn:Hc;
      cbn [table_after adding_after].
    + rewrite save_spec. cbv zeta. cbn [fst snd].
      rewrite invoice_to_row_set_stamps, Hrow, conflicts_set_stamps, Hc.
      cbn [option_map table_after].
      split; [reflexivity|]. split; [discriminate|].
      intros ->. f_equal. rewrite set_stamps_set_stamps, id_set_stamps.
      fold stored. rewrite created_at_set_stamps. f_equal.
      unfold c1. destruct (adding || negb stored); reflexivity.
    + rewrite save_spec. cbv zeta. cbn [fst snd].
      rewrite invoice_to_row_set_stamps, Hrow, conflicts_set_stamps.
      cbn [option_map].
      rewrite (no_conflicts_upsert adding x _ table Hc)
        by (rewrite id_set_stamps; exact Hid).
      rewrite id_set_stamps, created_at_set_stamps.
      rewrite (existsb_upsert_key _ table (Invoice.id x))
        by (rewrite id_set_stamps; exact Hid).
      cbn [orb negb table_after].
      rewrite !set_stamps_set_stamps.
      split.
      { rewrite !(stored_upsert_key _ _ (Invoice.id x))
          by (rewrite id_set_stamps; exact Hid).
        reflexivity. }
      split; [intros t1 _; eexists; reflexivity|].
      intros ->. rewrite upsert_idempotent. reflexivity.
  - cbn [table_after adding_after].
    rewrite save_spec. cbv zeta. cbn [fst snd].
    rewrite invoice_to_row_set_stamps, Hrow. cbn [option_map table_after].
    split; [reflexivity|]. split; [discriminate|].
    intros ->. f_equal. rewrite set_stamps_set_stamps, id_set_stamps.
    fold stored. rewrite created_at_set_stamps. f_equal.
    unfold c1. destruct (adding || negb stored); reflexivity.
Qed.

(** *** What [InvoiceLine.save] returns *)

Lemma stored_line_upsert (x : InvoiceLine.t) (table : list InvoiceLine.t) :
  stored_line (InvoiceLine.id x) (InvoiceLine.upsert x table) = Some x.
Proof.
  unfold stored_line.
  induction table as [|row rest IH]; cbn [InvoiceLine.upsert find].
  - rewrite Z.eqb_refl. reflexivity.
  - destruct (InvoiceLine.id row =? InvoiceLine.id x) eqn:E; cbn [find].
    + rewrite Z.eqb_refl. reflexivity.
    + rewrite E. exact IH.
Qed.

Lemma stored_line_upsert_other (x : InvoiceLine.t)
    (table : list InvoiceLine.t) (pk : uuid) :
  pk <> InvoiceLine.id x ->
  stored_line pk (InvoiceLine.upsert x table) = stored_line pk table.
Proof.
  intros Hpk. unfold stored_line.
  induction table as [|row rest IH]; cbn [InvoiceLine.upsert find].
  - destruct (InvoiceLine.id x =? pk) eqn:E; [apply Z.eqb_eq in E; congruence|].
    reflexivity.
  - destruct (InvoiceLine.id row =? InvoiceLine.id x) eqn:E; cbn [find].
    + apply Z.eqb_eq in E.
      destruct (InvoiceLine.id x =? pk) eqn:E1;
        [apply Z.eqb_eq in E1; congruence|].
      destruct (InvoiceLine.id row =? pk) eqn:E2;
        [apply Z.eqb_eq in E2; congruence|].
      reflexivity.
    + destruct (InvoiceLine.id row =? pk); [reflexivity | exact IH].
Qed.

Lemma existsb_stored_line (pk : uuid) (table : list InvoiceLine.t) :
  existsb (fun row => InvoiceLine.id row =? pk) table = true
  <-> stored_line pk table <> None.
Proof.
  unfold stored_line. induction table as [|row rest IH]; cbn [existsb find].
  - split; [discriminate | intros H; contradiction H; reflexivity].
  - destruct (InvoiceLine.id row =? pk); cbn [orb].
    + split; [discriminate | reflexivity].
    + exact IH.
Qed.

(** A successful [save()] of a line wrote its row under its key. *)
Lemma line_save_Saved (adding : bool) (x : InvoiceLine.t)
    (table table' : list InvoiceLine.t) :
  InvoiceLine.save adding x table = Saved table' ->
  exists row,
    InvoiceLine.to_row x = Some row /\
    adding && existsb (fun old => InvoiceLine.id old =? InvoiceLine.id x) table
    = false /\
    table' = InvoiceLine.upsert row table.
Proof.
  unfold InvoiceLine.save. intros H.
  destruct (InvoiceLine.to_row x) as [row|]; [|discriminate H].
  destruct (adding
            && existsb (fun old => InvoiceLine.id old =? InvoiceLine.id x)
                 table); [discriminate H|].
  injection H as <-. exists row. repeat split.
Qed.

Lemma line_save_stored (adding : bool) (x : InvoiceLine.t)
    (table table' : list InvoiceLine.t) :
  InvoiceLine.save adding x table = Saved table' ->
  exists row,
    InvoiceLine.to_row x = Some row /\
    stored_line (InvoiceLine.id x) table' = Some row /\
    (forall pk, pk <> InvoiceLine.id x ->
       stored_line pk table' = stored_line pk table).
Proof.
  intros H. destruct (line_save_Saved _ _ _ _ H) as (row & Hrow & _ & ->).
  exists row. split; [exact Hrow|].
  destruct (line_to_row_id _ _ Hrow) as (Hid & _).
  split.
  - rewrite <- Hid. apply stored_line_upsert.
  - intros pk Hpk. apply stored_line_upsert_other. rewrite Hid. exact Hpk.
Qed.

(** [save()] of a line a second time, in the state the first one left,
    has the outcome of the first. *)
Lemma line_save_twice (adding : bool) (x : InvoiceLine.t)
    (table : list InvoiceLine.t) :
  let first := InvoiceLine.save adding x table in
  InvoiceLine.save (adding_after adding first) x (table_after first table)
  = first.
Proof.
  cbv zeta. unfold InvoiceLine.save.
  destruct (InvoiceLine.to_row x) as [row|] eqn:Hrow;
    [|cbn [adding_after table_after]; reflexivity].
  destruct (line_to_row_id _ _ Hrow) as (Hid & _).
  destruct (adding
            && existsb (fun old => InvoiceLine.id old =? InvoiceLine.id x)
                 table) eqn:E; cbn [adding_after table_after].
  - rewrite E. reflexivity.
  - cbn [andb]. rewrite line_upsert_idempotent. reflexivity.
Qed.

(** The line computation reads the quantity, the price and the two
    percentages only, which it leaves as they are. *)
Lemma line_calculate_totals_fst_again (a a' : bool) (line : InvoiceLine.t)
    (t t' : list InvoiceLine.t) :
  fst (InvoiceLine.calculate_totals a'
         (fst (InvoiceLine.calculate_totals a line t)) t')
  = fst (InvoiceLine.calculate_totals a line t).
Proof.
  unfold InvoiceLine.calculate_totals.
  cbn [fst InvoiceLine.set_totals InvoiceLine.quantity
       InvoiceLine.unit_price InvoiceLine.discount_percent
       InvoiceLine.tax_rate InvoiceLine.id InvoiceLine.invoice
       InvoiceLine.line_number InvoiceLine.product InvoiceLine.service
       InvoiceLine.description InvoiceLine.revenue_account].
  reflexivity.
Qed.

Lemma line_calculate_totals_snd (a : bool) (line : InvoiceLine.t)
    (t : list InvoiceLine.t) :
  snd (InvoiceLine.calculate_totals a line t)
  = InvoiceLine.save a (fst (InvoiceLine.calculate_totals a line t)) t.
Proof. reflexivity. Qed.

End InvoiceTotals.

(** What the columns make of some values: 1.0001000000, 1.005, -1.005,
    [Decimal('0')], the largest value of the column, and two values that
    need more than twenty digits. *)
Example to_column_examples :
  to_column 20 2 (Decimal.lit 10001000000 10) = Some (Decimal.lit 100 2) /\
  to_column 20 2 (Decimal.lit 1005 3) = Some (Decimal.lit 101 2) /\
  to_column 20 2 (Decimal.lit (-1005) 3) = Some (Decimal.lit (-101) 2) /\
  to_column 20 2 (Decimal.of_int 0) = Some (Decimal.lit 0 2) /\
  to_column 20 2 (Decimal.lit 99999999999999999999 2)
  = Some (Decimal.lit 99999999999999999999 2) /\
  to_column 20 2 (Decimal.lit 999999999999999999995 3) = None /\
  to_column 20 2 (Decimal.lit 120000000000000000000 2) = None.
Proof. repeat split; vm_compute; reflexivity. Qed.

(** Writes that raise.  The invoice over two lines of
    600000000000000000.00 is given a subtotal of 21 digits, its [save()]
    raises and its row stays as it was; a line whose product is about 1e22
    is not stored; a line being added under a key that is stored, and an
    invoice taking the number of another, are refused. *)
Example save_examples :
  let wide :=
    Invoice.calculate_totals later false scenario_invoice
      [heavy_row 12; heavy_row 13] [scenario_invoice] in
  Invoice.subtotal (fst wide) = Decimal.lit 120000000000000000000 2 /\
  snd wide = DataError /\
  table_after (snd wide) [scenario_invoice] = [scenario_invoice] /\
  snd (InvoiceLine.calculate_totals true huge_line []) = DataError /\
  snd (InvoiceLine.calculate_totals true scenario_line [scenario_row])
  = IntegrityError /\
  snd (Invoice.calculate_totals later true overdue_invoice [] [scenario_invoice])
  = IntegrityError.
Proof. cbv zeta. repeat split; vm_compute; reflexivity. Qed.

(** ** The totals of an invoice *)
Section StoredTotals.





End StoredTotals.



(** ** What is persisted *)
Section Persisted.


Lemma line_calculate_totals_id (a : bool) (line : InvoiceLine.t)
    (t : list InvoiceLine.t) :
  InvoiceLine.id (fst (InvoiceLine.calculate_totals a line t))
  = InvoiceLine.id line /\
  InvoiceLine.invoice (fst (InvoiceLine.calculate_totals a line t))
  = InvoiceLine.invoice line.
Proof. split; reflexivity. Qed.

(** After a successful line computation the key of the line holds the row
    of the instance. *)
Lemma line_calculate_totals_stored (a : bool) (line : InvoiceLine.t)
    (table table' : list InvoiceLine.t) :
  snd (InvoiceLine.calculate_totals a line table) = Saved table' ->
  exists row,
    InvoiceLine.to_row (fst (InvoiceLine.calculate_totals a line table))
    = Some row /\
    stored_line (InvoiceLine.id line) table' = Some row /\
    (forall pk, pk <> InvoiceLine.id line ->
       stored_line pk table' = stored_line pk table).
Proof.
  rewrite line_calculate_totals_snd. intros H.
  destruct (line_save_stored _ _ _ _ H) as (row & Hrow & Hst & Hother).
  destruct (line_calculate_totals_id a line table) as [Hid _].
  rewrite Hid in Hst, Hother. exists row. auto.
Qed.

(** After a successful invoice computation the key of the invoice holds the
    row of the instance. *)
Lemma calculate_totals_stored (now : datetime) (a : bool) (self : Invoice.t)
    (lines : list InvoiceLine.t) (invoices invoices' : list Invoice.t) :
  snd (Invoice.calculate_totals now a self lines invoices) = Saved invoices' ->
  exists row,
    Invoice.to_row (fst (Invoice.calculate_totals now a self lines invoices))
    = Some row /\
    stored_invoice (Invoice.id self) invoices' = Some row /\
    (forall pk, pk <> Invoice.id self ->
       stored_invoice pk invoices' = stored_invoice pk invoices).
Proof.
  rewrite calculate_totals_save. intros H.
  destruct (save_stored _ _ _ _ _ H) as (row & Hrow & Hst & Hother).
  destruct (with_totals_inputs self lines) as (Hid & _).
  rewrite Hid in Hst, Hother. exists row. auto.
Qed.



End Persisted.




(** ** What [Invoice.calculate_totals] leaves alone *)
Section Frame.

Lemma set_stamps_frame (self x : Invoice.t) (c u : datetime) :
  x = Invoice.set_totals self (Invoice.subtotal x) (Invoice.tax_amount x)
        (Invoice.total_amount x) (Invoice.balance_due x) ->
  let x' := Invoice.set_stamps x c u in
  x' = Invoice.set_stamps
         (Invoice.set_totals self (Invoice.subtotal x')
            (Invoice.tax_amount x') (Invoice.total_amount x')
            (Invoice.balance_due x'))
         (Invoice.created_at x') (Invoice.updated_at x').
Proof.
  intros H. cbv zeta.
  change (Invoice.set_stamps x c u
          = Invoice.set_stamps
              (Invoice.set_totals self (Invoice.subtotal x)
                 (Invoice.tax_amount x) (Invoice.total_amount x)
                 (Invoice.balance_due x)) c u).
  rewrite <- H. reflexivity.
Qed.

(** The totals of an invoice without line items. *)
Lemma with_totals_empty (self : Invoice.t) (lines : list InvoiceLine.t) :
  column 20 2 (Invoice.discount_amount self) ->
  column 20 2 (Invoice.paid_amount self) ->
  Invoice.line_items self lines = [] ->
  let x := with_totals self lines in
  Invoice.subtotal x = Decimal.of_int 0 /\
  Invoice.tax_amount x = Decimal.of_int 0 /\
  (Decimal.toQ (Invoice.total_amount x)
   == - Decimal.toQ (Invoice.discount_amount self))%Q /\
  (Decimal.toQ (Invoice.balance_due x)
   == - Decimal.toQ (Invoice.discount_amount self)
      - Decimal.toQ (Invoice.paid_amount self))%Q.
Proof.
  intros Hd Hp Hnil. cbv zeta. unfold with_totals.
  cbn [Invoice.set_totals Invoice.subtotal Invoice.tax_amount
       Invoice.total_amount Invoice.balance_due].
  rewrite Hnil. cbn [map Sum or_zero].
  split; [reflexivity|]. split; [reflexivity|].
  pose proof (invoice_totals_exact [] [] (Invoice.discount_amount self)
                (Invoice.paid_amount self) (Forall_nil _) (Forall_nil _)
                Hd Hp ltac:(cbn; lia) ltac:(cbn; lia))
    as (_ & _ & Qtot & Qbal).
  cbn [Sum or_zero] in Qtot, Qbal.
  split.
  - rewrite Qtot, toQ_of_int. ring.
  - rewrite Qbal, Qtot, toQ_of_int. ring.
Qed.

End Frame.

(** C10, as amended.  [Invoice.calculate_totals] changes, on the instance,
    only [subtotal], [tax_amount], [total_amount], [balance_due] and the
    timestamps that [save()] maintains ([updated_at], and [created_at] when
    the row is inserted); [discount_amount], [paid_amount], [status],
    [currency], [exchange_rate] and the invoice's line items are unchanged.
    When its [save()] succeeds the row stored for the invoice is the row of
    that instance; whether it succeeds or not, every other invoice row is
    unchanged.  On an invoice
    with no line items whose discount and paid amount fit their columns it
    sets [subtotal = 0] and [tax_amount = 0], so
    [total_amount = -discount_amount] and
    [balance_due = -discount_amount - paid_amount]. *)
Theorem C10_calculate_totals_frame
    (now : datetime) (adding : bool) (self : Invoice.t)
    (lines : list InvoiceLine.t) (invoices : list Invoice.t) :
  let result := Invoice.calculate_totals now adding self lines invoices in
  let self' := fst result in
  self' = Invoice.set_stamps
            (Invoice.set_totals self (Invoice.subtotal self')
               (Invoice.tax_amount self') (Invoice.total_amount self')
               (Invoice.balance_due self'))
            (Invoice.created_at self') (Invoice.updated_at self') /\
  Invoice.updated_at self' = now /\
  (adding = false -> stored_invoice (Invoice.id self) invoices <> None ->
   Invoice.created_at self' = Invoice.created_at self) /\
  (Invoice.discount_amount self' = Invoice.discount_amount self /\
   Invoice.paid_amount self' = Invoice.paid_amount self /\
   Invoice.status self' = Invoice.status self /\
   Invoice.currency self' = Invoice.currency self /\
   Invoice.exchange_rate self' = Invoice.exchange_rate self) /\
  Invoice.line_items self' lines = Invoice.line_items self lines /\
  (forall invoices', snd result = Saved invoices' ->
     exists row,
       Invoice.to_row self' = Some row /\
       stored_invoice (Invoice.id self) invoices' = Some row) /\
  (forall pk, pk <> Invoice.id self ->
     stored_invoice pk (table_after (snd result) invoices)
     = stored_invoice pk invoices) /\
  (column 20 2 (Invoice.discount_amount self) ->
   column 20 2 (Invoice.paid_amount self) ->
   Invoice.line_items self lines = [] ->
   Invoice.subtotal self' = Decimal.of_int 0 /\
   Invoice.tax_amount self' = Decimal.of_int 0 /\
   (Decimal.toQ (Invoice.total_amount self')
    == - Decimal.toQ (Invoice.discount_amount self))%Q /\
   (Decimal.toQ (Invoice.balance_due self')
    == - Decimal.toQ (Invoice.discount_amount self)
       - Decimal.toQ (Invoice.paid_amount self))%Q).
Proof.
  cbv zeta.
  split.
  { rewrite calculate_totals_save, save_fst.
    apply set_stamps_frame. apply with_totals_frame. }
  split; [reflexivity|].
  split.
  { intros -> Hex. apply existsb_stored in Hex.
    rewrite calculate_totals_save, save_fst.
    destruct (with_totals_inputs self lines) as (Hid & _ & _ & Ec & _).
    rewrite Hid, Hex, Ec. reflexivity. }
  split.
  { rewrite calculate_totals_save, save_fst.
    destruct (with_totals_inputs self lines) as (_ & Ed & Ep & _ & Es & Ec & Ex).
    repeat split; assumption. }
  split; [reflexivity|].
  split.
  { intros invoices' Hs.
    destruct (calculate_totals_stored _ _ _ _ _ _ Hs) as (row & Hrow & Hst & _).
    exists row. split; assumption. }
  split.
  { intros pk Hpk.
    destruct (snd (Invoice.calculate_totals now adding self lines invoices))
      as [t| |] eqn:Hs; cbn [table_after]; try reflexivity.
    destruct (calculate_totals_stored _ _ _ _ _ _ Hs) as (_ & _ & _ & Hother).
    apply Hother. exact Hpk. }
  intros Hd Hp Hnil. rewrite calculate_totals_save, save_fst.
  exact (with_totals_empty self lines Hd Hp Hnil).
Qed.

(** An invoice without lines, recomputed at a later time. *)
Lemma C10_calculate_totals_frame_witness :
  let self := scenario_invoice in
  let result := Invoice.calculate_totals later false self [] [self] in
  let self' := fst result in
  Invoice.updated_at self' = later /\
  Invoice.created_at self' = Invoice.created_at self /\
  Invoice.status self' = Invoice.status self /\
  Invoice.subtotal self' = Decimal.of_int 0 /\
  (Decimal.toQ (Invoice.total_amount self')
   == - Decimal.toQ (Invoice.discount_amount self))%Q /\
  exists row,
    stored_invoice (Invoice.id self) (table_after (snd result) [self])
    = Some row /\
    Invoice.subtotal row = Decimal.lit 0 2.
Proof.
  cbv zeta.
  destruct (C10_calculate_totals_frame later false scenario_invoice []
              [scenario_invoice])
    as (_ & Hu & Hc & (_ & _ & Hs & _) & _ & Hsaved & _ & Hnil).
  destruct Hnil as (H0 & _ & Ht & _).
  - split; [reflexivity | vm_compute; reflexivity].
  - split; [reflexivity | vm_compute; reflexivity].
  - reflexivity.
  - split; [exact Hu|]. split; [apply Hc; [reflexivity | discriminate]|].
    split; [exact Hs|]. split; [exact H0|]. split; [exact Ht|].
    destruct (snd (Invoice.calculate_totals later false scenario_invoice []
                     [scenario_invoice])) as [t| |] eqn:E;
      [| vm_compute in E; discriminate E | vm_compute in E; discriminate E].
    destruct (Hsaved t eq_refl) as (row & Hrow & Hst).
    exists row. cbn [table_after]. split; [exact Hst|].
    vm_compute in Hrow. injection Hrow as <-. reflexivity.
Defined.

(** C10 as stated fails: [save()] also rewrites [updated_at]
    ([auto_now=True]), so the invoice after the call is not the invoice
    before it with only the four totals replaced. *)
Lemma C10_counterexample :
  let self := scenario_invoice in
  let self' := fst (Invoice.calculate_totals later false self [] [self]) in
  Invoice.updated_at self = epoch /\
  Invoice.updated_at self' = later /\
  self' <> Invoice.set_totals self (Invoice.subtotal self')
             (Invoice.tax_amount self') (Invoice.total_amount self')
             (Invoice.balance_due self').
Proof.
  cbv zeta. split; [reflexivity|]. split; [reflexivity|].
  intros H. apply (f_equal Invoice.updated_at) in H.
  vm_compute in H. discriminate H.
Qed.

(** ** Computing the totals twice *)

(** C6.  Computing the totals of an invoice a second time, at any later
    time and on unchanged lines, discount and paid amount, leaves the four
    cached totals of the instance exactly as the first computation left
    them, whatever became of the first [save()]; the totals of the stored
    row are those the first computation stored, a [save()] that succeeded
    succeeds again, and at an unchanged clock the second call returns what
    the first returned.  The line computation likewise reproduces itself. *)
Theorem C6_totals_idempotent
    (now1 now2 : datetime) (adding : bool) (self : Invoice.t)
    (lines : list InvoiceLine.t) (invoices : list Invoice.t)
    (line_adding : bool) (line : InvoiceLine.t) (table : list InvoiceLine.t) :
  let first := Invoice.calculate_totals now1 adding self lines invoices in
  let self1 := fst first in
  let invoices1 := table_after (snd first) invoices in
  let second :=
    Invoice.calculate_totals now2 (adding_after adding (snd first)) self1
      lines invoices1 in
  let invoices2 := table_after (snd second) invoices1 in
  let line_first := InvoiceLine.calculate_totals line_adding line table in
  (forall adding2 invoices',
     totals (fst (Invoice.calculate_totals now2 adding2 self1 lines invoices'))
     = totals self1) /\
  totals (fst second) = totals self1 /\
  option_map totals (stored_invoice (Invoice.id self) invoices2)
  = option_map totals (stored_invoice (Invoice.id self) invoices1) /\
  (forall t1, snd first = Saved t1 -> exists t2, snd second = Saved t2) /\
  (now2 = now1 -> second = first) /\
  InvoiceLine.calculate_totals (adding_after line_adding (snd line_first))
    (fst line_first) (table_after (snd line_first) table)
  = line_first.
Proof.
  cbv zeta.
  assert (Hagain : forall adding2 invoices',
            Invoice.calculate_totals now2 adding2
              (fst (Invoice.calculate_totals now1 adding self lines invoices))
              lines invoices'
            = Invoice.save now2 adding2
                (fst (Invoice.calculate_totals now1 adding self lines invoices))
                invoices').
  { intros adding2 invoices'.
    rewrite (calculate_totals_save now2), (calculate_totals_save now1).
    rewrite save_fst, with_totals_again. reflexivity. }
  split; [intros adding2 invoices'; rewrite Hagain; reflexivity|].
  rewrite Hagain. rewrite (calculate_totals_save now1).
  destruct (with_totals_inputs self lines) as (Hid & _).
  rewrite <- Hid.
  destruct (save_twice now1 now2 adding (with_totals self lines) invoices)
    as (H1 & H2 & H3 & H4).
  split; [exact H1|]. split; [exact H2|]. split; [exact H3|].
  split; [exact H4|].
  rewrite line_calculate_totals_snd.
  set (line1 := fst (InvoiceLine.calculate_totals line_adding line table)).
  assert (Hpair : forall a t,
            InvoiceLine.calculate_totals a line1 t
            = (line1, InvoiceLine.save a line1 t)).
  { intros a t. unfold line1.
    rewrite (surjective_pairing (InvoiceLine.calculate_totals a _ t)).
    rewrite line_calculate_totals_fst_again, line_calculate_totals_snd.
    rewrite line_calculate_totals_fst_again. reflexivity. }
  rewrite Hpair, line_save_twice.
  rewrite (surjective_pairing
             (InvoiceLine.calculate_totals line_adding line table)).
  rewrite line_calculate_totals_snd. reflexivity.
Qed.

(** ** Scenario A *)

(** C7.  Scenario A: the line with quantity 2, unit price 100, discount
    10 %, tax 5 % gets [line_total == 180.00] and [tax_amount == 9.00], and
    the single-line invoice holding it, with no discount and nothing paid,
    gets [subtotal == 180.00], [tax_amount == 9.00] and
    [total_amount == 189.00]; whether the inputs are held as column values
    or as Decimals made from integers, and whether the line and the invoice
    are new or saved before. *)
Theorem C7_scenario_A :
  forall line line_adding adding,
  line = scenario_line \/ line = scenario_line_int ->
  let line' := fst (InvoiceLine.calculate_totals line_adding line []) in
  let lines' :=
    table_after (snd (InvoiceLine.calculate_totals line_adding line [])) [] in
  let inv' :=
    fst (Invoice.calculate_totals epoch adding scenario_invoice lines' []) in
  Decimal.eqb (InvoiceLine.line_total line') (Decimal.lit 18000 2) = true /\
  Decimal.eqb (InvoiceLine.tax_amount line') (Decimal.lit 900 2) = true /\
  Decimal.eqb (Invoice.subtotal inv') (Decimal.lit 18000 2) = true /\
  Decimal.eqb (Invoice.tax_amount inv') (Decimal.lit 900 2) = true /\
  Decimal.eqb (Invoice.total_amount inv') (Decimal.lit 18900 2) = true.
Proof.
  intros line [|] [|] [->| ->]; cbv zeta; repeat split; vm_compute;
    reflexivity.
Qed.

(** Scenario A with the inputs as the columns hold them, for a new line and
    a new invoice. *)
Lemma C7_scenario_A_witness :
  let line' := fst (InvoiceLine.calculate_totals true scenario_line []) in
  let lines' :=
    table_after (snd (InvoiceLine.calculate_totals true scenario_line [])) [] in
  let inv' :=
    fst (Invoice.calculate_totals epoch true scenario_invoice lines' []) in
  Decimal.eqb (InvoiceLine.line_total line') (Decimal.lit 18000 2) = true /\
  Decimal.eqb (InvoiceLine.tax_amount line') (Decimal.lit 900 2) = true /\
  Decimal.eqb (Invoice.subtotal inv') (Decimal.lit 18000 2) = true /\
  Decimal.eqb (Invoice.tax_amount inv') (Decimal.lit 900 2) = true /\
  Decimal.eqb (Invoice.total_amount inv') (Decimal.lit 18900 2) = true.
Proof.
  apply (C7_scenario_A scenario_line true true). left. reflexivity.
Defined.

(** ** [Invoice.is_overdue] and the stored status *)

Lemma date_ltb_spec (a b : date) : date_ltb a b = true <-> date_before a b.
Proof.
  unfold date_ltb, date_before.
  rewrite !orb_true_iff, !andb_true_iff, !orb_true_iff, !andb_true_iff.
  rewrite !Z.ltb_lt, !Z.eqb_eq. tauto.
Qed.

(** C8.  For every invoice and every read time, [is_overdue] is true
    exactly when [due_date] is strictly before the current date and the
    status is neither 'paid' nor 'cancelled'. *)
Theorem C8_is_overdue (now : datetime) (self : Invoice.t) :
  Invoice.is_overdue now self = true
  <-> date_before (Invoice.due_date self) (dt_date now)
      /\ Invoice.status self <> "paid"%string
      /\ Invoice.status self <> "cancelled"%string.
Proof.
  unfold Invoice.is_overdue. cbn [existsb].
  rewrite andb_true_iff, negb_true_iff, !orb_false_iff, date_ltb_spec.
  rewrite !String.eqb_neq. tauto.
Qed.

(** C9, as amended.  No operation of the code changes an invoice's status:
    [calculate_totals] leaves the status of the instance as it found it,
    the row it stores on a successful [save()] carries that status (so it
    writes 'overdue' only for an invoice that already had it), no other
    invoice row is touched whether the [save()] succeeds or not, and
    [is_overdue] is computed at the read from [due_date], [status] and the
    current date alone.  'overdue' is nevertheless one of the declared
    [INVOICE_STATUS] choices of the stored field. *)
Theorem C9_status_is_never_changed
    (now : datetime) (adding : bool) (self : Invoice.t)
    (lines : list InvoiceLine.t) (invoices : list Invoice.t) :
  let result := Invoice.calculate_totals now adding self lines invoices in
  Invoice.status (fst result) = Invoice.status self /\
  (forall invoices', snd result = Saved invoices' ->
     option_map Invoice.status (stored_invoice (Invoice.id self) invoices')
     = Some (Invoice.status self)) /\
  (forall pk, pk <> Invoice.id self ->
     stored_invoice pk (table_after (snd result) invoices)
     = stored_invoice pk invoices) /\
  (forall read other,
     Invoice.due_date other = Invoice.due_date self ->
     Invoice.status other = Invoice.status self ->
     Invoice.is_overdue read other = Invoice.is_overdue read self) /\
  Invoice.status_choice "overdue" = true.
Proof.
  cbv zeta.
  assert (Hst : Invoice.status
                  (fst (Invoice.calculate_totals now adding self lines
                          invoices))
                = Invoice.status self).
  { rewrite calculate_totals_save, save_fst.
    destruct (with_totals_inputs self lines) as (_ & _ & _ & _ & Es & _).
    exact Es. }
  split; [exact Hst|].
  split.
  { intros invoices' Hs.
    destruct (calculate_totals_stored _ _ _ _ _ _ Hs) as (row & Hrow & Hrw & _).
    destruct (invoice_to_row_id _ _ Hrow) as (_ & _ & Hs' & _).
    rewrite Hrw. cbn [option_map]. rewrite Hs', Hst. reflexivity. }
  split.
  { intros pk Hpk.
    destruct (snd (Invoice.calculate_totals now adding self lines invoices))
      as [t| |] eqn:Hs; cbn [table_after]; try reflexivity.
    destruct (calculate_totals_stored _ _ _ _ _ _ Hs) as (_ & _ & _ & Hother).
    apply Hother. exact Hpk. }
  split.
  { intros read other Hdue Hs. unfold Invoice.is_overdue.
    rewrite Hdue, Hs. reflexivity. }
  reflexivity.
Qed.

(** C9 as stated fails: 'overdue' is a status the stored field accepts, and
    [calculate_totals] on an invoice carrying it writes a row whose
    persisted status is 'overdue'. *)
Lemma C9_counterexample :
  Invoice.status_choice (Invoice.status overdue_invoice) = true /\
  exists invoices',
    snd (Invoice.calculate_totals epoch true overdue_invoice [] [])
    = Saved invoices' /\
    option_map Invoice.status
      (stored_invoice (Invoice.id overdue_invoice) invoices')
    = Some "overdue"%string.
Proof.
  split; [vm_compute; reflexivity|].
  eexists. split; vm_compute; reflexivity.
Qed.

(** ** Journal entries *)

(** C1, as amended.  For every journal entry, posted or not, whose cached
    [total_debit] and [total_credit] equal the sums of its lines' debit and
    credit amounts, [is_balanced] is true exactly when the debit sum equals
    the credit sum. *)
Theorem C1_is_balanced_when_totals_mirror_lines
    (entry : JournalEntry.t) (table : list JournalEntryLine.t) :
  let lines := journal_lines entry table in
  (Decimal.toQ (JournalEntry.total_debit entry)
   == sumQ (map JournalEntryLine.debit lines))%Q ->
  (Decimal.toQ (JournalEntry.total_credit entry)
   == sumQ (map JournalEntryLine.credit lines))%Q ->
  (JournalEntry.is_balanced entry = true
   <-> (sumQ (map JournalEntryLine.debit lines)
        == sumQ (map JournalEntryLine.credit lines))%Q).
Proof.
  intros lines Hd Hc. unfold JournalEntry.is_balanced.
  rewrite eqb_toQ, Hd, Hc. reflexivity.
Qed.

(** A posted entry with debit 100.00 against credit 100.00 and mirrored totals. *)
Lemma C1_is_balanced_witness :
  let entry := sample_entry "posted" (Decimal.lit 10000 2) (Decimal.lit 10000 2) in
  let lines := journal_lines entry balanced_lines in
  JournalEntry.is_balanced entry = true
  <-> (sumQ (map JournalEntryLine.debit lines)
       == sumQ (map JournalEntryLine.credit lines))%Q.
Proof.
  apply (C1_is_balanced_when_totals_mirror_lines
           (sample_entry "posted" (Decimal.lit 10000 2) (Decimal.lit 10000 2))
           balanced_lines); vm_compute; reflexivity.
Defined.

(** C1 as stated fails: the model accepts a posted entry whose lines carry
    debit 100.00 against credit 90.00; with mirrored cached totals it is not
    balanced, and with the default cached totals (0, 0) [is_balanced] is
    true although the lines do not balance and the totals do not mirror
    them. *)
Lemma C1_counterexample :
  let mirrored :=
    sample_entry "posted" (Decimal.lit 10000 2) (Decimal.lit 9000 2) in
  let defaulted := sample_entry "posted" (Decimal.of_int 0) (Decimal.of_int 0) in
  let lines := journal_lines mirrored unbalanced_lines in
  JournalEntry.status mirrored = "posted"%string /\
  existsb (fun c => String.eqb (JournalEntry.status mirrored) (fst c))
    JournalEntry.STATUS = true /\
  List.length lines = 2%nat /\
  ~ (sumQ (map JournalEntryLine.debit lines)
     == sumQ (map JournalEntryLine.credit lines))%Q /\
  JournalEntry.is_balanced mirrored = false /\
  journal_lines defaulted unbalanced_lines = lines /\
  JournalEntry.is_balanced defaulted = true /\
  ~ (Decimal.toQ (JournalEntry.total_debit defaulted)
     == sumQ (map JournalEntryLine.debit lines))%Q.
Proof.
  cbv zeta.
  split; [reflexivity|]. split; [reflexivity|]. split; [reflexivity|].
  split; [intros H; vm_compute in H; discriminate H|].
  split; [vm_compute; reflexivity|]. split; [reflexivity|].
  split; [vm_compute; reflexivity|].
  intros H; vm_compute in H; discriminate H.
Qed.

(** ** Payment allocations *)
Section AllocationFacts.

Lemma sumQ_app (l l' : list Decimal.t) : (sumQ (l ++ l') == sumQ l + sumQ l')%Q.
Proof.
  unfold sumQ. induction l as [|x l IH]; cbn [app map fold_right].
  - ring.
  - rewrite IH. ring.
Qed.

Lemma sumQ_filter_snoc (keep : PaymentAllocation.t -> bool)
    (table : list PaymentAllocation.t) (a : PaymentAllocation.t) :
  (sumQ (map PaymentAllocation.allocated_amount (filter keep (table ++ [a])))
   == sumQ (map PaymentAllocation.allocated_amount (filter keep table))
      + (if keep a then Decimal.toQ (PaymentAllocation.allocated_amount a)
         else 0))%Q.
Proof.
  rewrite filter_app, map_app, sumQ_app. cbn [filter].
  destruct (keep a); unfold sumQ; cbn [map fold_right]; ring.
Qed.

Lemma conflicts_ignore_amount (a : PaymentAllocation.t) (amount : Decimal.t)
    (at' : datetime) (table : list PaymentAllocation.t) :
  existsb
    (PaymentAllocation.conflicts
       (PaymentAllocation.mk (PaymentAllocation.id a)
          (PaymentAllocation.payment a) (PaymentAllocation.invoice a)
          amount at')) table
  = existsb (PaymentAllocation.conflicts a) table.
Proof.
  induction table as [|b rest IH]; cbn [existsb]; [reflexivity|].
  rewrite IH. reflexivity.
Qed.

(** A successful [create] added the row of the allocation at the end of the
    table. *)
Lemma create_Saved (now : datetime) (a : PaymentAllocation.t)
    (table table' : list PaymentAllocation.t) :
  PaymentAllocation.create now a table = Saved table' ->
  exists stored,
    to_column 20 2 (PaymentAllocation.allocated_amount a) = Some stored /\
    existsb (PaymentAllocation.conflicts a) table = false /\
    table' = table ++ [PaymentAllocation.mk (PaymentAllocation.id a)
                         (PaymentAllocation.payment a)
                         (PaymentAllocation.invoice a) stored now].
Proof.
  unfold PaymentAllocation.create. intros H.
  destruct (to_column 20 2 (PaymentAllocation.allocated_amount a))
    as [stored|]; [|discriminate H].
  destruct (existsb (PaymentAllocation.conflicts a) table);
    [discriminate H|].
  injection H as <-. exists stored. repeat split.
Qed.

(** [create] is refused for a conflict or for an amount its column cannot
    hold, and for nothing else. *)
Lemma create_Saved_iff (now : datetime) (a : PaymentAllocation.t)
    (table : list PaymentAllocation.t) :
  (exists table', PaymentAllocation.create now a table = Saved table')
  <-> to_column 20 2 (PaymentAllocation.allocated_amount a) <> None
      /\ existsb (PaymentAllocation.conflicts a) table = false.
Proof.
  unfold PaymentAllocation.create.
  destruct (to_column 20 2 (PaymentAllocation.allocated_amount a))
    as [stored|].
  - destruct (existsb (PaymentAllocation.conflicts a) table).
    + split; [intros [t H]; discriminate H | intros [_ H]; discriminate H].
    + split; [intros _; split; [discriminate | reflexivity]|].
      intros _. eexists. reflexivity.
  - split; [intros [t H]; discriminate H|].
    intros [H _]. contradiction H. reflexivity.
Qed.

End AllocationFacts.

(** C5, as amended.  The code has no allocate operation and no
    over-allocation check: creating a [PaymentAllocation] succeeds exactly
    when its amount fits the [DecimalField(20, 2)] column and no stored
    allocation has its primary key or its (payment, invoice) pair.  A
    created allocation is stored with its amount rounded to the column
    (unchanged when it is held in the format of the column) and adds the
    stored amount to the allocated sum of its payment and of its invoice
    and to no other, so the bounds [sum <= payment.amount] and
    [sum <= invoice.total_amount] hold afterwards exactly when the old sum
    plus the stored amount is within them. *)
Theorem C5_create_adds_the_amount
    (now : datetime) (a : PaymentAllocation.t)
    (table table' : list PaymentAllocation.t)
    (p : Payment.t) (i : Invoice.t) :
  PaymentAllocation.create now a table = Saved table' ->
  let amount_of := PaymentAllocation.allocated_amount in
  exists stored,
    to_column 20 2 (amount_of a) = Some stored /\
    (column 20 2 (amount_of a) -> stored = amount_of a) /\
    let for_p :=
      if PaymentAllocation.payment a =? Payment.id p
      then Decimal.toQ stored else 0%Q in
    let for_i :=
      if PaymentAllocation.invoice a =? Invoice.id i
      then Decimal.toQ stored else 0%Q in
    (forall now' amount at',
       (exists t,
          PaymentAllocation.create now'
            (PaymentAllocation.mk (PaymentAllocation.id a)
               (PaymentAllocation.payment a) (PaymentAllocation.invoice a)
               amount at') table = Saved t)
       <-> to_column 20 2 amount <> None) /\
    (forall b, In b table ->
       ~ (PaymentAllocation.payment b = PaymentAllocation.payment a
          /\ PaymentAllocation.invoice b = PaymentAllocation.invoice a)) /\
    (sumQ (map amount_of (allocations p table'))
     == sumQ (map amount_of (allocations p table)) + for_p)%Q /\
    (sumQ (map amount_of (payment_allocations i table'))
     == sumQ (map amount_of (payment_allocations i table)) + for_i)%Q /\
    ((sumQ (map amount_of (allocations p table'))
      <= Decimal.toQ (Payment.amount p))%Q
     <-> (sumQ (map amount_of (allocations p table)) + for_p
          <= Decimal.toQ (Payment.amount p))%Q) /\
    ((sumQ (map amount_of (payment_allocations i table'))
      <= Decimal.toQ (Invoice.total_amount i))%Q
     <-> (sumQ (map amount_of (payment_allocations i table)) + for_i
          <= Decimal.toQ (Invoice.total_amount i))%Q).
Proof.
  intros Hc amount_of.
  destruct (create_Saved _ _ _ _ Hc) as (stored & Hst & E & ->).
  exists stored. split; [exact Hst|].
  split.
  { intros Hcol. pose proof (column_to_column 20 2 _ Hcol) as Hsame.
    unfold amount_of in Hsame. rewrite Hsame in Hst.
    injection Hst as <-. reflexivity. }
  intros for_p for_i.
  set (row := PaymentAllocation.mk (PaymentAllocation.id a)
                (PaymentAllocation.payment a) (PaymentAllocation.invoice a)
                stored now).
  assert (Hp : (sumQ (map amount_of (allocations p (table ++ [row])))
                == sumQ (map amount_of (allocations p table)) + for_p)%Q).
  { exact (sumQ_filter_snoc
             (fun b => PaymentAllocation.payment b =? Payment.id p)
             table row). }
  assert (Hi : (sumQ (map amount_of (payment_allocations i (table ++ [row])))
                == sumQ (map amount_of (payment_allocations i table))
                   + for_i)%Q).
  { exact (sumQ_filter_snoc
             (fun b => PaymentAllocation.invoice b =? Invoice.id i)
             table row). }
  split.
  { intros now' amount at'. rewrite create_Saved_iff.
    cbn [PaymentAllocation.allocated_amount].
    rewrite conflicts_ignore_amount, E. tauto. }
  split.
  { intros b Hb [H1 H2].
    assert (Hf : PaymentAllocation.conflicts a b = false).
    { destruct (PaymentAllocation.conflicts a b) eqn:Eb; [|reflexivity].
      rewrite <- E. symmetry. apply existsb_exists. exists b.
      split; assumption. }
    unfold PaymentAllocation.conflicts in Hf.
    rewrite H1, H2, !Z.eqb_refl, orb_true_r in Hf. discriminate Hf. }
  split; [exact Hp|]. split; [exact Hi|].
  split; [rewrite Hp | rewrite Hi]; reflexivity.
Qed.

(** An allocation of 40.00 of the payment of 100.00. *)
Lemma C5_create_witness :
  let a := sample_allocation (Decimal.lit 4000 2) in
  PaymentAllocation.create epoch a [] = Saved [a] /\
  ((sumQ (map PaymentAllocation.allocated_amount
            (allocations sample_payment [a]))
    <= Decimal.toQ (Payment.amount sample_payment))%Q
   <-> (sumQ (map PaymentAllocation.allocated_amount
                (allocations sample_payment []))
        + Decimal.toQ (PaymentAllocation.allocated_amount a)
        <= Decimal.toQ (Payment.amount sample_payment))%Q).
Proof.
  cbv zeta. split; [reflexivity|].
  destruct (C5_create_adds_the_amount epoch
              (sample_allocation (Decimal.lit 4000 2)) []
              [sample_allocation (Decimal.lit 4000 2)] sample_payment
              scenario_invoice eq_refl)
    as (stored & _ & Hsame & _ & _ & _ & _ & Hp & _).
  rewrite (Hsame ltac:(split; [reflexivity | vm_compute; reflexivity])) in Hp.
  exact Hp.
Defined.

(** C5 as stated fails: an allocation of 150.00 of a payment of 100.00, to
    an invoice whose total is 0.00, is created without error, and both
    allocated sums then exceed their bounds. *)
Lemma C5_counterexample :
  let a := sample_allocation (Decimal.lit 15000 2) in
  PaymentAllocation.create epoch a [] = Saved [a] /\
  ~ (sumQ (map PaymentAllocation.allocated_amount
             (allocations sample_payment [a]))
     <= Decimal.toQ (Payment.amount sample_payment))%Q /\
  ~ (sumQ (map PaymentAllocation.allocated_amount
             (payment_allocations scenario_invoice [a]))
     <= Decimal.toQ (Invoice.total_amount scenario_invoice))%Q.
Proof.
  cbv zeta. split; [reflexivity|].
  split; intros H; vm_compute in H; apply H; reflexivity.
Qed.

(** * Further properties of the finance models *)

(** ** Reading [is_overdue] and [is_balanced] *)

(** X1.  Once an invoice reads as overdue it keeps reading so at every
    later date, as long as the invoice itself is unchanged. *)
Theorem X1_is_overdue_persists (now after : datetime) (self : Invoice.t) :
  Invoice.is_overdue now self = true ->
  ~ date_before (dt_date after) (dt_date now) ->
  Invoice.is_overdue after self = true.
Proof.
  unfold Invoice.is_overdue. rewrite !andb_true_iff, !date_ltb_spec.
  intros [Hdue Hst] Hlater. split; [|exact Hst].
  unfold date_before in *. lia.
Qed.

(** An invoice due on 1 February read on 1 March and again on 2 March. *)
Lemma X1_is_overdue_persists_witness :
  Invoice.is_overdue (mkdatetime (mkdate 2024 3 2) 0) scenario_invoice = true.
Proof.
  apply (X1_is_overdue_persists later (mkdatetime (mkdate 2024 3 2) 0)).
  - reflexivity.
  - unfold date_before. cbn. lia.
Defined.

(** X2.  [is_balanced] compares the amounts the two cached totals denote,
    not their digits: it is true exactly when they are equal as numbers, so
    100 and 100.00 balance, and it is symmetric in debit and credit. *)
Theorem X2_is_balanced_is_numeric (entry : JournalEntry.t) :
  (JournalEntry.is_balanced entry = true
   <-> (Decimal.toQ (JournalEntry.total_debit entry)
        == Decimal.toQ (JournalEntry.total_credit entry))%Q)
  /\ Decimal.eqb (JournalEntry.total_credit entry)
       (JournalEntry.total_debit entry)
     = JournalEntry.is_balanced entry.
Proof.
  unfold JournalEntry.is_balanced. split; [apply eqb_toQ|].
  destruct (Decimal.eqb (JournalEntry.total_debit entry)
              (JournalEntry.total_credit entry)) eqn:E.
  - apply eqb_toQ. symmetry. apply eqb_toQ. exact E.
  - destruct (Decimal.eqb (JournalEntry.total_credit entry)
                (JournalEntry.total_debit entry)) eqn:E'; [|reflexivity].
    rewrite <- E. symmetry. apply eqb_toQ. symmetry. apply eqb_toQ. exact E'.
Qed.

(** ** What a write does to a table *)
Section SaveFacts.

Lemma line_upsert_keys (x : InvoiceLine.t) (table : list InvoiceLine.t) :
  forall pk, In pk (map InvoiceLine.id (InvoiceLine.upsert x table)) ->
             pk = InvoiceLine.id x \/ In pk (map InvoiceLine.id table).
Proof.
  induction table as [|row rest IH]; cbn [InvoiceLine.upsert map In]; intros pk H.
  - destruct H as [H|[]]. left. symmetry. exact H.
  - destruct (InvoiceLine.id row =? InvoiceLine.id x) eqn:E;
      cbn [map In] in H.
    + destruct H as [H|H]; [left; symmetry; exact H | right; right; exact H].
    + destruct H as [H|H]; [right; left; exact H|].
      destruct (IH pk H) as [H'|H']; [left; exact H' | right; right; exact H'].
Qed.

Lemma line_upsert_NoDup (x : InvoiceLine.t) (table : list InvoiceLine.t) :
  NoDup (map InvoiceLine.id table) ->
  NoDup (map InvoiceLine.id (InvoiceLine.upsert x table)).
Proof.
  induction table as [|row rest IH]; cbn [InvoiceLine.upsert map]; intros H.
  - constructor; [intros [] | constructor].
  - inversion H as [|? ? Hnin Hrest]; subst.
    destruct (InvoiceLine.id row =? InvoiceLine.id x) eqn:E; cbn [map].
    + apply Z.eqb_eq in E. rewrite <- E. constructor; assumption.
    + apply Z.eqb_neq in E. constructor; [|apply IH; exact Hrest].
      intros Hin. destruct (line_upsert_keys x rest _ Hin) as [Heq|Hin'];
        [congruence | contradiction].
Qed.

Lemma line_upsert_length (x : InvoiceLine.t) (table : list InvoiceLine.t) :
  List.length (InvoiceLine.upsert x table)
  = match stored_line (InvoiceLine.id x) table with
    | Some _ => List.length table
    | None => S (List.length table)
    end.
Proof.
  unfold stored_line.
  induction table as [|row rest IH]; cbn [InvoiceLine.upsert find List.length].
  - reflexivity.
  - destruct (InvoiceLine.id row =? InvoiceLine.id x); cbn [List.length].
    + reflexivity.
    + rewrite IH. destruct (find _ rest); reflexivity.
Qed.

Lemma upsert_keys (x : Invoice.t) (table : list Invoice.t) :
  forall pk, In pk (map Invoice.id (Invoice.upsert x table)) ->
             pk = Invoice.id x \/ In pk (map Invoice.id table).
Proof.
  induction table as [|row rest IH]; cbn [Invoice.upsert map In]; intros pk H.
  - destruct H as [H|[]]. left. symmetry. exact H.
  - destruct (Invoice.id row =? Invoice.id x) eqn:E; cbn [map In] in H.
    + destruct H as [H|H]; [left; symmetry; exact H | right; right; exact H].
    + destruct H as [H|H]; [right; left; exact H|].
      destruct (IH pk H) as [H'|H']; [left; exact H' | right; right; exact H'].
Qed.

Lemma upsert_NoDup (x : Invoice.t) (table : list Invoice.t) :
  NoDup (map Invoice.id table) ->
  NoDup (map Invoice.id (Invoice.upsert x table)).
Proof.
  induction table as [|row rest IH]; cbn [Invoice.upsert map]; intros H.
  - constructor; [intros [] | constructor].
  - inversion H as [|? ? Hnin Hrest]; subst.
    destruct (Invoice.id row =? Invoice.id x) eqn:E; cbn [map].
    + apply Z.eqb_eq in E. rewrite <- E. constructor; assumption.
    + apply Z.eqb_neq in E. constructor; [|apply IH; exact Hrest].
      intros Hin. destruct (upsert_keys x rest _ Hin) as [Heq|Hin'];
        [congruence | contradiction].
Qed.

Lemma upsert_length (x : Invoice.t) (table : list Invoice.t) :
  List.length (Invoice.upsert x table)
  = match stored_invoice (Invoice.id x) table with
    | Some _ => List.length table
    | None => S (List.length table)
    end.
Proof.
  unfold stored_invoice.
  induction table as [|row rest IH]; cbn [Invoice.upsert find List.length].
  - reflexivity.
  - destruct (Invoice.id row =? Invoice.id x); cbn [List.length].
    + reflexivity.
    + rewrite IH. destruct (find _ rest); reflexivity.
Qed.

End SaveFacts.

(** X3.  [InvoiceLine.calculate_totals] changes nothing of the line but
    [line_total] and [tax_amount]; when its [save()] succeeds the row
    stored under the key of the line is the row of the instance, each
    amount through its column; and whether it succeeds or not, the row
    stored under any other key is the one that was there before. *)
Theorem X3_line_calculate_totals_frame
    (adding : bool) (self : InvoiceLine.t) (table : list InvoiceLine.t) :
  let result := InvoiceLine.calculate_totals adding self table in
  let self' := fst result in
  self' = InvoiceLine.set_totals self (InvoiceLine.line_total self')
            (InvoiceLine.tax_amount self') /\
  (forall table', snd result = Saved table' ->
     exists row,
       InvoiceLine.to_row self' = Some row /\
       stored_line (InvoiceLine.id self) table' = Some row) /\
  (forall pk, pk <> InvoiceLine.id self ->
     stored_line pk (table_after (snd result) table) = stored_line pk table).
Proof.
  cbv zeta. split; [reflexivity|]. split.
  - intros table' Hs.
    destruct (line_calculate_totals_stored _ _ _ _ Hs) as (row & Hrow & Hst & _).
    exists row. split; assumption.
  - intros pk Hpk.
    destruct (snd (InvoiceLine.calculate_totals adding self table))
      as [t| |] eqn:Hs; cbn [table_after]; try reflexivity.
    destruct (line_calculate_totals_stored _ _ _ _ Hs) as (_ & _ & _ & Hother).
    apply Hother. exact Hpk.
Qed.

(** X4.  A [save()] through either [calculate_totals] that succeeds never
    duplicates a primary key, and it adds a row only when no row with the
    key was stored: otherwise the table keeps its size.  It does not
    succeed for an instance being added whose key is already stored. *)
Theorem X4_calculate_totals_keeps_keys_unique
    (now : datetime) (adding line_adding : bool) (self : Invoice.t)
    (lines : list InvoiceLine.t) (invoices : list Invoice.t)
    (line : InvoiceLine.t) :
  NoDup (map Invoice.id invoices) ->
  NoDup (map InvoiceLine.id lines) ->
  (forall invoices',
     snd (Invoice.calculate_totals now adding self lines invoices)
     = Saved invoices' ->
     NoDup (map Invoice.id invoices') /\
     List.length invoices'
     = match stored_invoice (Invoice.id self) invoices with
       | Some _ => List.length invoices
       | None => S (List.length invoices)
       end /\
     (adding = true -> stored_invoice (Invoice.id self) invoices = None)) /\
  (forall lines',
     snd (InvoiceLine.calculate_totals line_adding line lines) = Saved lines' ->
     NoDup (map InvoiceLine.id lines') /\
     List.length lines'
     = match stored_line (InvoiceLine.id line) lines with
       | Some _ => List.length lines
       | None => S (List.length lines)
       end /\
     (line_adding = true -> stored_line (InvoiceLine.id line) lines = None)).
Proof.
  intros Hi Hl. split.
  - intros invoices' Hs. rewrite calculate_totals_save in Hs.
    destruct (save_Saved _ _ _ _ _ Hs) as (row & Hrow & Hc & ->).
    destruct (invoice_to_row_id _ _ Hrow) as (Hid & _).
    rewrite save_fst in Hid.
    destruct (with_totals_inputs self lines) as (Hself & _).
    change (Invoice.id row = Invoice.id (with_totals self lines)) in Hid.
    rewrite Hself in Hid.
    split; [apply upsert_NoDup; exact Hi|].
    split; [rewrite upsert_length, Hid; reflexivity|].
    intros ->.
    destruct (stored_invoice (Invoice.id self) invoices) as [old|] eqn:Hold;
      [exfalso | reflexivity].
    unfold stored_invoice in Hold. apply find_some in Hold.
    destruct Hold as [Hin Hkey].
    assert (Hex : existsb (Invoice.conflicts true (with_totals self lines))
                    invoices = true).
    { apply existsb_exists. exists old. split; [exact Hin|].
      unfold Invoice.conflicts. rewrite Hself, Hkey. reflexivity. }
    rewrite Hex in Hc. discriminate Hc.
  - intros lines' Hs. rewrite line_calculate_totals_snd in Hs.
    destruct (line_save_Saved _ _ _ _ Hs) as (row & Hrow & Hc & ->).
    destruct (line_to_row_id _ _ Hrow) as (Hid & _).
    destruct (line_calculate_totals_id line_adding line lines) as (Hself & _).
    rewrite Hself in Hid, Hc.
    split; [apply line_upsert_NoDup; exact Hl|].
    split; [rewrite line_upsert_length, Hid; reflexivity|].
    intros ->. cbn [andb] in Hc.
    destruct (stored_line (InvoiceLine.id line) lines) as [old|] eqn:Hold;
      [exfalso | reflexivity].
    assert (Hex : existsb
                    (fun old => InvoiceLine.id old =? InvoiceLine.id line)
                    lines = true).
    { apply existsb_stored_line. rewrite Hold. discriminate. }
    rewrite Hex in Hc. discriminate Hc.
Qed.

(** The Scenario A invoice and line, loaded and saved into the tables that
    hold them. *)
Lemma X4_keys_unique_witness :
  exists invoices' lines',
    snd (Invoice.calculate_totals later false scenario_invoice [scenario_row]
           [scenario_invoice]) = Saved invoices' /\
    snd (InvoiceLine.calculate_totals false scenario_line [scenario_row])
    = Saved lines' /\
    NoDup (map Invoice.id invoices') /\
    NoDup (map InvoiceLine.id lines') /\
    List.length invoices' = 1%nat /\ List.length lines' = 1%nat.
Proof.
  destruct (X4_calculate_totals_keeps_keys_unique later false false
              scenario_invoice [scenario_row] [scenario_invoice] scenario_line)
    as [Hinv Hline].
  - cbn. constructor; [intros [] | constructor].
  - cbn. constructor; [intros [] | constructor].
  - eexists. eexists.
    split; [vm_compute; reflexivity|]. split; [vm_compute; reflexivity|].
    destruct (Hinv _ ltac:(vm_compute; reflexivity)) as (N1 & L1 & _).
    destruct (Hline _ ltac:(vm_compute; reflexivity)) as (N2 & L2 & _).
    split; [exact N1|]. split; [exact N2|].
    split; [exact L1 | exact L2].
Defined.


(** ** The lines an invoice sums *)
Section LineSums.

Import Decimal.

Lemma add_exact_comm (a b : t) : add_exact a b = add_exact b a.
Proof.
  unfold add_exact. rewrite (Z.min_comm (exp b) (exp a)). f_equal. ring.
Qed.

Lemma add_exact_assoc (a b c : t) :
  add_exact (add_exact a b) c = add_exact a (add_exact b c).
Proof.
  unfold add_exact; cbn [coef exp].
  replace (Z.min (exp a) (Z.min (exp b) (exp c)))
    with (Z.min (Z.min (exp a) (exp b)) (exp c)) by lia.
  set (m1 := Z.min (exp a) (exp b)). set (m2 := Z.min (exp b) (exp c)).
  set (m := Z.min m1 (exp c)).
  assert (Hm : m <= m1 /\ m <= m2 /\ m1 <= exp a /\ m1 <= exp b
               /\ m2 <= exp b /\ m2 <= exp c) by (subst m m1 m2; lia).
  assert (Pa : 10 ^ (exp a - m1) * 10 ^ (m1 - m) = 10 ^ (exp a - m))
    by (rewrite <- Z.pow_add_r by lia; f_equal; lia).
  assert (Pb : 10 ^ (exp b - m1) * 10 ^ (m1 - m) = 10 ^ (exp b - m))
    by (rewrite <- Z.pow_add_r by lia; f_equal; lia).
  assert (Pb' : 10 ^ (exp b - m2) * 10 ^ (m2 - m) = 10 ^ (exp b - m))
    by (rewrite <- Z.pow_add_r by lia; f_equal; lia).
  assert (Pc : 10 ^ (exp c - m2) * 10 ^ (m2 - m) = 10 ^ (exp c - m))
    by (rewrite <- Z.pow_add_r by lia; f_equal; lia).
  f_equal.
  rewrite !Z.mul_add_distr_r, <- !Z.mul_assoc, Pa, Pb, Pb', Pc. ring.
Qed.

Lemma fold_add_exact_perm (l l' : list t) :
  Permutation l l' ->
  forall d, fold_left add_exact l d = fold_left add_exact l' d.
Proof.
  induction 1 as [|x l l' _ IH|x y l|l l' l'' _ IH1 _ IH2]; intros d;
    cbn [fold_left].
  - reflexivity.
  - apply IH.
  - f_equal. rewrite !add_exact_assoc. f_equal. apply add_exact_comm.
  - rewrite IH1. apply IH2.
Qed.

(** The database's sum of a column does not depend on the order of rows. *)
Lemma Sum_perm (l l' : list t) : Permutation l l' -> Sum l = Sum l'.
Proof.
  induction 1 as [|x l l' Hp _|x y l|l l' l'' _ IH1 _ IH2]; cbn [Sum].
  - reflexivity.
  - f_equal. apply fold_add_exact_perm. exact Hp.
  - cbn [fold_left]. f_equal. f_equal. apply add_exact_comm.
  - rewrite IH1. exact IH2.
Qed.

Lemma filter_perm {A : Type} (keep : A -> bool) (l l' : list A) :
  Permutation l l' -> Permutation (filter keep l) (filter keep l').
Proof.
  induction 1 as [|x l l' _ IH|x y l|l l' l'' _ IH1 _ IH2]; cbn [filter].
  - constructor.
  - destruct (keep x); [constructor|]; exact IH.
  - destruct (keep x), (keep y); try apply Permutation_refl. constructor.
  - eapply Permutation_trans; eassumption.
Qed.

Lemma line_items_foreign (self : Invoice.t) (l1 l2 : list InvoiceLine.t)
    (x : InvoiceLine.t) :
  InvoiceLine.invoice x <> Invoice.id self ->
  Invoice.line_items self (l1 ++ x :: l2) = Invoice.line_items self (l1 ++ l2).
Proof.
  intros Hx. unfold Invoice.line_items. rewrite !filter_app. cbn [filter].
  destruct (InvoiceLine.invoice x =? Invoice.id self) eqn:E;
    [apply Z.eqb_eq in E; contradiction | reflexivity].
Qed.

Lemma sumQ_cons (d : t) (col : list t) : (sumQ (d :: col) == toQ d + sumQ col)%Q.
Proof. unfold sumQ; cbn [map fold_right]. reflexivity. Qed.

Lemma mul_zero_l (a b : t) : coef a = 0 -> coef (mul a b) = 0.
Proof.
  intros H. unfold mul. rewrite H, Z.mul_0_l.
  rewrite round_ctx_small; [reflexivity|].
  cbn [coef]. change (Z.abs 0) with 0. apply pow10_pos. unfold prec. lia.
Qed.

Lemma mul_zero_r (a b : t) : coef b = 0 -> coef (mul a b) = 0.
Proof.
  intros H. unfold mul. rewrite H, Z.mul_0_r.
  rewrite round_ctx_small; [reflexivity|].
  cbn [coef]. change (Z.abs 0) with 0. apply pow10_pos. unfold prec. lia.
Qed.

Lemma zero_coef_eqb (d : t) : coef d = 0 -> eqb d (of_int 0) = true.
Proof.
  intros H. apply eqb_toQ. destruct d as [c e]. cbn [coef] in H. subst c.
  rewrite toQ_zero, toQ_of_int. reflexivity.
Qed.

End LineSums.

(** X5.  A line whose fields hold Decimals comes to nothing when its
    quantity is zero, its unit price is zero or its discount is 100.00 %:
    [line_total] and [tax_amount] are then zero whatever Decimals the other
    fields hold. *)
Theorem X5_line_totals_zero
    (adding : bool) (self : InvoiceLine.t) (table : list InvoiceLine.t) :
  Decimal.coef (InvoiceLine.quantity self) = 0
  \/ Decimal.coef (InvoiceLine.unit_price self) = 0
  \/ InvoiceLine.discount_percent self = Decimal.lit 10000 2 ->
  let self' := fst (InvoiceLine.calculate_totals adding self table) in
  Decimal.eqb (InvoiceLine.line_total self') (Decimal.of_int 0) = true /\
  Decimal.eqb (InvoiceLine.tax_amount self') (Decimal.of_int 0) = true.
Proof.
  intros H. cbv zeta. unfold InvoiceLine.calculate_totals.
  cbn [fst InvoiceLine.set_totals InvoiceLine.line_total
       InvoiceLine.tax_amount].
  set (df := Decimal.sub (Decimal.of_int 1)
               (Decimal.div_int (InvoiceLine.discount_percent self) 100)).
  assert (Hsub : Decimal.coef
                   (Decimal.mul
                      (Decimal.mul (InvoiceLine.quantity self)
                         (InvoiceLine.unit_price self)) df) = 0).
  { destruct H as [H|[H|H]].
    - apply mul_zero_l. apply mul_zero_l. exact H.
    - apply mul_zero_l. apply mul_zero_r. exact H.
    - apply mul_zero_r. subst df. rewrite H. vm_compute. reflexivity. }
  split; apply zero_coef_eqb; [exact Hsub | apply mul_zero_l; exact Hsub].
Qed.

(** A line of 3 units at 19.99 with a discount of 100.00 %. *)
Lemma X5_line_totals_zero_witness :
  let self' :=
    fst (InvoiceLine.calculate_totals true
           (sample_line 1 1 (Decimal.lit 30000 4) (Decimal.lit 199900 4)
              (Decimal.lit 10000 2) (Decimal.lit 500 2)) []) in
  Decimal.eqb (InvoiceLine.line_total self') (Decimal.of_int 0) = true /\
  Decimal.eqb (InvoiceLine.tax_amount self') (Decimal.of_int 0) = true.
Proof.
  apply (X5_line_totals_zero true
           (sample_line 1 1 (Decimal.lit 30000 4) (Decimal.lit 199900 4)
              (Decimal.lit 10000 2) (Decimal.lit 500 2)) []).
  right. right. reflexivity.
Defined.

(** X6.  The lines of other invoices do not count: a row whose [invoice]
    key is another invoice's can be added to the table, anywhere, without
    changing what [Invoice.calculate_totals] computes and stores. *)
Theorem X6_foreign_lines_are_ignored
    (now : datetime) (adding : bool) (self : Invoice.t)
    (l1 l2 : list InvoiceLine.t)
    (x : InvoiceLine.t) (invoices : list Invoice.t) :
  InvoiceLine.invoice x <> Invoice.id self ->
  Invoice.calculate_totals now adding self (l1 ++ x :: l2) invoices
  = Invoice.calculate_totals now adding self (l1 ++ l2) invoices.
Proof.
  intros Hx. unfold Invoice.calculate_totals.
  rewrite (line_items_foreign self l1 l2 x Hx). reflexivity.
Qed.

(** The Scenario A invoice with a line of invoice 20 in front of its own. *)
Lemma X6_foreign_lines_witness :
  Invoice.calculate_totals epoch true scenario_invoice
    ([] ++ fine_line :: [scenario_row]) []
  = Invoice.calculate_totals epoch true scenario_invoice
      ([] ++ [scenario_row]) [].
Proof.
  apply (X6_foreign_lines_are_ignored epoch true scenario_invoice []
           [scenario_row] fine_line []).
  cbn. discriminate.
Defined.

(** X7.  The order of the rows in the line table does not matter: on any
    rearrangement of the table [Invoice.calculate_totals] computes and
    stores the same invoice, digit for digit. *)
Theorem X7_line_order_is_irrelevant
    (now : datetime) (adding : bool) (self : Invoice.t)
    (lines lines' : list InvoiceLine.t)
    (invoices : list Invoice.t) :
  Permutation lines lines' ->
  Invoice.calculate_totals now adding self lines' invoices
  = Invoice.calculate_totals now adding self lines invoices.
Proof.
  intros Hp. unfold Invoice.calculate_totals, Invoice.line_items.
  assert (Hf : Permutation
                 (filter (fun l => InvoiceLine.invoice l =? Invoice.id self)
                    lines)
                 (filter (fun l => InvoiceLine.invoice l =? Invoice.id self)
                    lines'))
    by (apply filter_perm; exact Hp).
  rewrite (Sum_perm _ _ (Permutation_map InvoiceLine.line_total Hf)).
  rewrite (Sum_perm _ _ (Permutation_map InvoiceLine.tax_amount Hf)).
  reflexivity.
Qed.

(** Two lines of one invoice, swapped. *)
Lemma X7_line_order_witness :
  let other := InvoiceLine.set_totals (sample_line 12 10 (Decimal.lit 10000 4)
                 (Decimal.lit 50000 4) (Decimal.lit 0 2) (Decimal.lit 0 2))
                 (Decimal.lit 5 1) (Decimal.lit 0 2) in
  Invoice.calculate_totals epoch true scenario_invoice [other; scenario_row] []
  = Invoice.calculate_totals epoch true scenario_invoice [scenario_row; other]
      [].
Proof.
  cbv zeta. apply X7_line_order_is_irrelevant. apply perm_swap.
Defined.

(** X8.  The subtotal and the tax of an invoice are additive over its
    lines: a further line of the invoice raises [subtotal] by its
    [line_total] and [tax_amount] by its [tax_amount], exactly. *)
Theorem X8_totals_are_additive
    (now : datetime) (adding : bool) (self : Invoice.t) (x : InvoiceLine.t)
    (lines : list InvoiceLine.t) (invoices : list Invoice.t) :
  InvoiceLine.invoice x = Invoice.id self ->
  let before := fst (Invoice.calculate_totals now adding self lines invoices) in
  let after :=
    fst (Invoice.calculate_totals now adding self (x :: lines) invoices) in
  (Decimal.toQ (Invoice.subtotal after)
   == Decimal.toQ (Invoice.subtotal before)
      + Decimal.toQ (InvoiceLine.line_total x))%Q /\
  (Decimal.toQ (Invoice.tax_amount after)
   == Decimal.toQ (Invoice.tax_amount before)
      + Decimal.toQ (InvoiceLine.tax_amount x))%Q.
Proof.
  intros Hx. cbv zeta. unfold Invoice.calculate_totals, Invoice.save.
  cbn [fst Invoice.set_stamps Invoice.set_totals Invoice.subtotal
       Invoice.tax_amount].
  unfold Invoice.line_items. cbn [filter].
  rewrite Hx, Z.eqb_refl. cbn [map].
  rewrite !toQ_or_zero_Sum, !sumQ_cons. split; ring.
Qed.

(** The Scenario A invoice gaining its line. *)
Lemma X8_totals_are_additive_witness :
  let before :=
    fst (Invoice.calculate_totals epoch true scenario_invoice [] []) in
  let after :=
    fst (Invoice.calculate_totals epoch true scenario_invoice [scenario_row]
           []) in
  (Decimal.toQ (Invoice.subtotal after)
   == Decimal.toQ (Invoice.subtotal before)
      + Decimal.toQ (InvoiceLine.line_total scenario_row))%Q /\
  (Decimal.toQ (Invoice.tax_amount after)
   == Decimal.toQ (Invoice.tax_amount before)
      + Decimal.toQ (InvoiceLine.tax_amount scenario_row))%Q.
Proof.
  apply (X8_totals_are_additive epoch true scenario_invoice scenario_row [] []).
  reflexivity.
Defined.


(** X9.  The totals are never clamped: for an invoice whose stored amounts
    fit their columns, [total_amount] is negative exactly when the discount
    exceeds subtotal plus tax, and [balance_due] is zero exactly when what
    was paid equals the total and negative exactly when more was paid. *)
Theorem X9_totals_are_not_clamped
    (now : datetime) (adding : bool) (self : Invoice.t)
    (lines : list InvoiceLine.t) (invoices : list Invoice.t) :
  (forall l, In l (Invoice.line_items self lines) ->
     column 20 2 (InvoiceLine.line_total l)) ->
  (forall l, In l (Invoice.line_items self lines) ->
     column 20 2 (InvoiceLine.tax_amount l)) ->
  column 20 2 (Invoice.discount_amount self) ->
  column 20 2 (Invoice.paid_amount self) ->
  Z.of_nat (List.length (Invoice.line_items self lines)) <= 10 ^ 7 ->
  let items := Invoice.line_items self lines in
  let self' := fst (Invoice.calculate_totals now adding self lines invoices) in
  ((Decimal.toQ (Invoice.total_amount self') < 0)%Q
   <-> (sumQ (map InvoiceLine.line_total items)
        + sumQ (map InvoiceLine.tax_amount items)
        < Decimal.toQ (Invoice.discount_amount self))%Q) /\
  ((Decimal.toQ (Invoice.balance_due self') == 0)%Q
   <-> (Decimal.toQ (Invoice.paid_amount self)
        == Decimal.toQ (Invoice.total_amount self'))%Q) /\
  ((Decimal.toQ (Invoice.balance_due self') < 0)%Q
   <-> (Decimal.toQ (Invoice.total_amount self')
        < Decimal.toQ (Invoice.paid_amount self))%Q).
Proof.
  intros Hlt Hta Hd Hp Hn items self'. subst items self'.
  unfold Invoice.calculate_totals, Invoice.save.
  cbn [fst Invoice.set_totals Invoice.set_stamps Invoice.total_amount
       Invoice.balance_due].
  pose proof (invoice_totals_exact
                (map InvoiceLine.line_total (Invoice.line_items self lines))
                (map InvoiceLine.tax_amount (Invoice.line_items self lines))
                (Invoice.discount_amount self) (Invoice.paid_amount self)
                (Forall_map_filter _ _ _ _ Hlt)
                (Forall_map_filter _ _ _ _ Hta) Hd Hp
                ltac:(rewrite length_map; exact Hn)
                ltac:(rewrite length_map; exact Hn))
    as (Qst & Qta & Qtot & Qbal).
  cbv zeta in Qst, Qta, Qtot, Qbal.
  rewrite Qbal, Qtot, Qst, Qta.
  split; [|split]; split; intros H; lra.
Qed.

(** An invoice of 189.00 on which 200.00 was paid. *)
Lemma X9_totals_are_not_clamped_witness :
  let self := sample_invoice 10 "sent" (mkdate 2024 2 1) (Decimal.lit 0 2)
                (Decimal.lit 20000 2) in
  let self' :=
    fst (Invoice.calculate_totals epoch true self [scenario_row] []) in
  (Decimal.toQ (Invoice.balance_due self') < 0)%Q
  <-> (Decimal.toQ (Invoice.total_amount self')
       < Decimal.toQ (Invoice.paid_amount self))%Q.
Proof.
  cbv zeta.
  refine (proj2 (proj2
    (X9_totals_are_not_clamped epoch true
       (sample_invoice 10 "sent" (mkdate 2024 2 1) (Decimal.lit 0 2)
          (Decimal.lit 20000 2)) [scenario_row] [] _ _ _ _ _))).
  - intros l Hl. vm_compute in Hl. destruct Hl as [<-|[]].
    split; [reflexivity | vm_compute; reflexivity].
  - intros l Hl. vm_compute in Hl. destruct Hl as [<-|[]].
    split; [reflexivity | vm_compute; reflexivity].
  - split; [reflexivity | vm_compute; reflexivity].
  - split; [reflexivity | vm_compute; reflexivity].
  - vm_compute. discriminate.
Defined.

(** X10.  Neither computation reads the cached fields it is about to
    overwrite: whatever stale totals the instance carries, the invoice gets
    the same four totals and the line the same [line_total] and
    [tax_amount]. *)
Theorem X10_stale_totals_do_not_matter
    (now : datetime) (adding line_adding : bool) (self : Invoice.t)
    (a b c d : Decimal.t)
    (lines : list InvoiceLine.t) (invoices : list Invoice.t)
    (line : InvoiceLine.t) (table : list InvoiceLine.t) :
  totals (fst (Invoice.calculate_totals now adding
                 (Invoice.set_totals self a b c d) lines invoices))
  = totals (fst (Invoice.calculate_totals now adding self lines invoices)) /\
  fst (InvoiceLine.calculate_totals line_adding
         (InvoiceLine.set_totals line a b) table)
  = fst (InvoiceLine.calculate_totals line_adding line table).
Proof.
  split.
  - rewrite !calculate_totals_save, !save_fst, !totals_set_stamps.
    apply with_totals_ext; reflexivity.
  - unfold InvoiceLine.calculate_totals. cbn [fst].
    unfold InvoiceLine.set_totals.
    cbn [InvoiceLine.quantity InvoiceLine.unit_price
         InvoiceLine.discount_percent InvoiceLine.tax_rate InvoiceLine.id
         InvoiceLine.invoice InvoiceLine.line_number InvoiceLine.product
         InvoiceLine.service InvoiceLine.description
         InvoiceLine.revenue_account].
    reflexivity.
Qed.

(** ** Creating payment allocations *)
Section CreateFacts.

Lemma NoDup_snoc {A : Type} (l : list A) (x : A) :
  NoDup l -> ~ In x l -> NoDup (l ++ [x]).
Proof.
  induction l as [|y l IH]; cbn [app]; intros Hl Hx.
  - constructor; [intros [] | constructor].
  - inversion Hl as [|? ? Hy Hl']; subst. constructor.
    + rewrite in_app_iff. intros [H|[H|[]]]; [contradiction|].
      apply Hx. left. symmetry. exact H.
    + apply IH; [exact Hl'|]. intros H. apply Hx. right. exact H.
Qed.

Lemma conflicts_self (a : PaymentAllocation.t) :
  PaymentAllocation.conflicts a a = true.
Proof. unfold PaymentAllocation.conflicts. rewrite Z.eqb_refl. reflexivity. Qed.

Lemma no_conflict_inv (a : PaymentAllocation.t)
    (table : list PaymentAllocation.t) :
  existsb (PaymentAllocation.conflicts a) table = false ->
  forall b, In b table ->
    PaymentAllocation.id b <> PaymentAllocation.id a /\
    (PaymentAllocation.payment b, PaymentAllocation.invoice b)
    <> (PaymentAllocation.payment a, PaymentAllocation.invoice a).
Proof.
  intros E b Hb.
  assert (Hf : PaymentAllocation.conflicts a b = false).
  { destruct (PaymentAllocation.conflicts a b) eqn:Eb; [|reflexivity].
    rewrite <- E. symmetry. apply existsb_exists. exists b. split; assumption. }
  unfold PaymentAllocation.conflicts in Hf.
  apply orb_false_iff in Hf. destruct Hf as [H1 H2].
  apply Z.eqb_neq in H1. split; [exact H1|].
  intros Hpair. injection Hpair as Hp Hi.
  rewrite Hp, Hi, !Z.eqb_refl in H2. discriminate H2.
Qed.

End CreateFacts.

(** X11.  Creating allocations keeps the table's keys unique: if no two
    stored allocations share a primary key or a (payment, invoice) pair,
    the same holds after a successful [create]; and a second allocation for
    the same payment and invoice, whatever its key and amount, is then
    refused. *)
Theorem X11_create_keeps_pairs_unique
    (now : datetime) (a : PaymentAllocation.t)
    (table table' : list PaymentAllocation.t) :
  NoDup (map PaymentAllocation.id table) ->
  NoDup (map (fun b => (PaymentAllocation.payment b,
                        PaymentAllocation.invoice b)) table) ->
  PaymentAllocation.create now a table = Saved table' ->
  NoDup (map PaymentAllocation.id table') /\
  NoDup (map (fun b => (PaymentAllocation.payment b,
                        PaymentAllocation.invoice b)) table') /\
  (forall now' pk amount at',
     let again :=
       PaymentAllocation.create now'
         (PaymentAllocation.mk pk (PaymentAllocation.payment a)
            (PaymentAllocation.invoice a) amount at') table' in
     again = IntegrityError \/ again = DataError).
Proof.
  intros Hid Hpair Hc.
  destruct (create_Saved _ _ _ _ Hc) as (stored & _ & E & ->).
  pose proof (no_conflict_inv a table E) as Hno.
  rewrite !map_app. cbn [map].
  split.
  { apply NoDup_snoc; [exact Hid|]. intros Hin.
    apply in_map_iff in Hin. destruct Hin as (b & Hb & Hbin).
    destruct (Hno b Hbin) as [Hne _]. contradiction. }
  split.
  { apply NoDup_snoc; [exact Hpair|]. intros Hin.
    apply in_map_iff in Hin. destruct Hin as (b & Hb & Hbin).
    destruct (Hno b Hbin) as [_ Hne]. contradiction. }
  intros now' pk amount at'. cbv zeta. unfold PaymentAllocation.create.
  cbn [PaymentAllocation.allocated_amount].
  destruct (to_column 20 2 amount); [|right; reflexivity].
  left.
  match goal with |- (if ?c then _ else _) = _ =>
    assert (Hex : c = true); [|rewrite Hex; reflexivity] end.
  apply existsb_exists. eexists. split.
  - apply in_or_app. right. left. reflexivity.
  - unfold PaymentAllocation.conflicts.
    cbn [PaymentAllocation.payment PaymentAllocation.invoice].
    rewrite !Z.eqb_refl. apply orb_true_r.
Qed.

(** The first allocation of a payment, and a second attempt for the same
    pair. *)
Lemma X11_create_keeps_pairs_unique_witness :
  let a := sample_allocation (Decimal.lit 4000 2) in
  NoDup (map PaymentAllocation.id [a]) /\
  PaymentAllocation.create epoch
    (PaymentAllocation.mk 61 50 10 (Decimal.lit 100 2) epoch) [a]
  = IntegrityError.
Proof.
  cbv zeta.
  destruct (X11_create_keeps_pairs_unique epoch
              (sample_allocation (Decimal.lit 4000 2)) []
              [sample_allocation (Decimal.lit 4000 2)])
    as (H1 & _ & H3).
  - constructor.
  - constructor.
  - reflexivity.
  - split; [exact H1|].
    destruct (H3 epoch 61 (Decimal.lit 100 2) epoch) as [H|H]; [exact H|].
    vm_compute in H. discriminate H.
Defined.


(** ** Recomputing a line, then its invoice *)
Section LineThenInvoice.


End LineThenInvoice.


